(** * recipe_buddy: Notion ingredient database, fetched page by page and
    parsed into validated [Ingredient] objects.

    The development follows the two Python modules of the package:

    - [recipe_buddy/schemas.py]: the enumerations [IngredientType] and
      [UnitOfMeasurement] and the pydantic model [Ingredient];
    - [recipe_buddy/notion.py]: [parse_ingredient_page],
      [parse_ingredient_data], [NotionDatabase._get_database_page] and
      [NotionDatabase.get_ingredients_data].

    Python values that come out of [response.json()] are modelled by the
    type [json]; a Python [dict] is a finite map ([gmap]) with string keys,
    a Python [float] is a binary64 number (Rocq's primitive floats), a
    Python [int] is a [Z].  Python's [None] and JSON's [null] are the same
    value, [JNull]; it is what [dict.get] answers for a missing key and it
    is the "absence marker" of the specification.  Exceptions are explicit:
    a computation that may raise returns a [result]. *)

From Stdlib Require Import ssreflect ZArith String Ascii.
From Stdlib Require Import Floats.PrimFloat Floats.SpecFloat Floats.FloatOps.
From stdpp Require Import base option list gmap strings.

#[local] Set Warnings "-register-all,-rewrite-rw".
#[local] Open Scope string_scope.
#[local] Open Scope list_scope.
#[local] Open Scope Z_scope.

(** ** Python values *)

Inductive json : Type :=
| JNull
| JBool (b : bool)
| JInt (z : Z)
| JFloat (f : PrimFloat.float)
| JStr (s : string)
| JList (l : list json)
| JDict (d : gmap string json).

(** The [type] entry of one line of a pydantic [ValidationError]. *)
Inductive error_type : Type :=
| string_type
| enum
| float_type
| float_parsing
| int_type
| int_parsing
| int_from_float
| finite_number
| int_parsing_size.

(** One line of a [ValidationError]: the field it is about and what went
    wrong there. *)
Definition error_details : Type := (string * error_type)%type.

(** The exceptions that the code under study can meet.  [RequestException]
    stands for whatever [requests.post] or [response.json()] raises;
    [StopIteration] is what an exhausted mock raises. *)
Inductive exn : Type :=
| AttributeError
| IndexError
| KeyError
| TypeError
| ValidationError (errors : list error_details)
| RequestException (msg : string)
| StopIteration.

Inductive result (A : Type) : Type :=
| Ok (a : A)
| Raise (e : exn).

Arguments Ok {A} a.
Arguments Raise {A} e.

#[global] Instance result_ret : MRet result := fun _ a => Ok a.

#[global] Instance result_bind : MBind result := fun _ _ k m =>
  match m with
  | Ok a => k a
  | Raise e => Raise e
  end.

Definition is_Ok {A} (r : result A) : bool :=
  match r with
  | Ok _ => true
  | Raise _ => false
  end.

(** [d.get(k, dflt)] where [d] is known to be a [dict]. *)
Definition dict_get {V} (d : gmap string V) (k : string) (dflt : V) : V :=
  default dflt (d !! k).

(** [v.get(k, dflt)] on an arbitrary value: only a [dict] has the method,
    every other JSON value raises [AttributeError]. *)
Definition py_get (v : json) (k : string) (dflt : json) : result json :=
  match v with
  | JDict d => Ok (dict_get d k dflt)
  | _ => Raise AttributeError
  end.

(** [v[0]] on an arbitrary value.  A list or a string answers its first
    element or raises [IndexError] when empty; a [dict] decoded from JSON
    only has string keys, so the key [0] raises [KeyError]; [None] and
    numbers are not subscriptable ([TypeError]).  The first element of a
    string is again a string (here: its first byte). *)
Definition py_getitem0 (v : json) : result json :=
  match v with
  | JList l =>
      match l !! 0%nat with
      | Some x => Ok x
      | None => Raise IndexError
      end
  | JStr s =>
      match s with
      | String c _ => Ok (JStr (String c EmptyString))
      | EmptyString => Raise IndexError
      end
  | JDict _ => Raise KeyError
  | _ => Raise TypeError
  end.

(** [str.lower()].  Strings are byte strings here; the letters [A]..[Z] are
    mapped to [a]..[z] and every other byte is kept.  (Python also lowers
    letters outside ASCII; no such letter lowers to a letter of
    ["grams"], so the outcome of validating the lowered text against
    [UnitOfMeasurement] is the same.) *)
Definition lower_ascii (c : ascii) : ascii :=
  let n := N_of_ascii c in
  if ((65 <=? n) && (n <=? 90))%N then ascii_of_N (n + 32) else c.

Fixpoint lower (s : string) : string :=
  match s with
  | EmptyString => EmptyString
  | String c s' => String (lower_ascii c) (lower s')
  end.

(** [v.lower()] on an arbitrary value: only [str] has the method. *)
Definition py_lower (v : json) : result string :=
  match v with
  | JStr s => Ok (lower s)
  | _ => Raise AttributeError
  end.

(** ** schemas.py *)

Inductive IngredientType : Type :=
| PROTEIN
| DAIRY
| FRUIT
| VEGETABLE
| GRAIN
| LEGUME_PULSE
| BAKING_INGREDIENT
| CONDIMENT_SAUCE
| NUT_SEED
| HERB_SPICE
| OIL_FAT
| OTHER.

Definition IngredientType_value (t : IngredientType) : string :=
  match t with
  | PROTEIN => "Protein"
  | DAIRY => "Dairy"
  | FRUIT => "Fruit"
  | VEGETABLE => "Vegetable"
  | GRAIN => "Grain"
  | LEGUME_PULSE => "Legume/Pulse"
  | BAKING_INGREDIENT => "Baking Ingredient"
  | CONDIMENT_SAUCE => "Condiment/Sauce"
  | NUT_SEED => "Nuts/Seeds"
  | HERB_SPICE => "Herb/Spice"
  | OIL_FAT => "Oil/Fat"
  | OTHER => "Other"
  end.

(** The members in definition order, as iterating the enum class gives
    them. *)
Definition IngredientType_members : list IngredientType :=
  [PROTEIN; DAIRY; FRUIT; VEGETABLE; GRAIN; LEGUME_PULSE; BAKING_INGREDIENT;
   CONDIMENT_SAUCE; NUT_SEED; HERB_SPICE; OIL_FAT; OTHER].

Inductive UnitOfMeasurement : Type :=
| GRAMS.

Definition UnitOfMeasurement_value (u : UnitOfMeasurement) : string :=
  match u with
  | GRAMS => "grams"
  end.

Definition UnitOfMeasurement_members : list UnitOfMeasurement := [GRAMS].

(** Lookup of an enum member by value: the first member whose value is the
    given text. *)
Definition enum_of_value {E} (value : E -> string) (members : list E)
    (s : string) : option E :=
  List.find (fun m => bool_decide (value m = s)) members.

Record Ingredient : Type := mkIngredient {
  name : string;
  type : IngredientType;
  units_of_measurement : UnitOfMeasurement;
  calories_per_100g : PrimFloat.float;
  protein_per_100g : PrimFloat.float;
  fat_per_100g : PrimFloat.float;
  carbs_per_100g : PrimFloat.float;
  shelf_life_room : option Z;
  shelf_life_fridge : option Z;
  shelf_life_freezer : option Z;
}.

(** *** pydantic's validation of the fields of [Ingredient]

    [Ingredient] is a pydantic (version 2) model in the default, lax mode.
    Each field has a validator; constructing the model runs all of them and
    raises one [ValidationError] listing every field that failed, in field
    order. *)

(** How lax mode reads a number out of a string ("165", "3.6") or out of a
    boolean is pydantic's own business and not part of this package: it is
    a parameter.  [None] stands for a value that is refused. *)
Class LaxCoercion : Type := {
  str_as_float : string -> option PrimFloat.float;
  str_as_int : string -> option Z;
  bool_as_float : bool -> option PrimFloat.float;
  bool_as_int : bool -> option Z;
}.

(** [float(z)]: the nearest binary64 number; too large an integer has
    none. *)
Definition float_of_int (z : Z) : option PrimFloat.float :=
  let f := SF2Prim (binary_normalize prec emax z 0 false) in
  if PrimFloat.is_infinity f then None else Some f.

(** A float is accepted for an [int] field when it is finite, has no
    fractional part and lies strictly between [-2^63] and [2^63]. *)
Definition float_as_int (f : PrimFloat.float) : error_type + Z :=
  match Prim2SF f with
  | S754_zero _ => inr 0
  | S754_infinity _ => inl finite_number
  | S754_nan => inl finite_number
  | S754_finite s m e =>
      if (0 <=? e) || (Z.pos m mod 2 ^ (- e) =? 0) then
        let a := if 0 <=? e then Z.pos m * 2 ^ e else Z.pos m / 2 ^ (- e) in
        let z := if s then - a else a in
        if (- 2 ^ 63 <? z) && (z <? 2 ^ 63) then inr z else inl int_parsing_size
      else inl int_from_float
  end.

Section Validators.
Context `{LaxCoercion}.

(** [name: str] *)
Definition validate_str (v : json) : error_type + string :=
  match v with
  | JStr s => inr s
  | _ => inl string_type
  end.

(** [type: IngredientType], [units_of_measurement: UnitOfMeasurement] *)
Definition validate_enum {E} (value : E -> string) (members : list E)
    (v : json) : error_type + E :=
  match v with
  | JStr s =>
      match enum_of_value value members s with
      | Some m => inr m
      | None => inl enum
      end
  | _ => inl enum
  end.

(** [calories_per_100g: float] and the three like it *)
Definition validate_float (v : json) : error_type + PrimFloat.float :=
  match v with
  | JFloat f => inr f
  | JInt z =>
      match float_of_int z with
      | Some f => inr f
      | None => inl float_type
      end
  | JBool b =>
      match bool_as_float b with
      | Some f => inr f
      | None => inl float_type
      end
  | JStr s =>
      match str_as_float s with
      | Some f => inr f
      | None => inl float_parsing
      end
  | _ => inl float_type
  end.

Definition validate_int (v : json) : error_type + Z :=
  match v with
  | JInt z => inr z
  | JBool b =>
      match bool_as_int b with
      | Some z => inr z
      | None => inl int_type
      end
  | JFloat f => float_as_int f
  | JStr s =>
      match str_as_int s with
      | Some z => inr z
      | None => inl int_parsing
      end
  | _ => inl int_type
  end.

(** [shelf_life_room: int | None] and the two like it *)
Definition validate_optional_int (v : json) : error_type + option Z :=
  match v with
  | JNull => inr None
  | _ =>
      match validate_int v with
      | inr z => inr (Some z)
      | inl e => inl e
      end
  end.

(** The keyword arguments of [Ingredient(...)], and also what
    [parse_ingredient_page] extracts from a page: one value per field. *)
Record fields : Type := mkFields {
  f_name : json;
  f_type : json;
  f_units_of_measurement : json;
  f_calories_per_100g : json;
  f_protein_per_100g : json;
  f_fat_per_100g : json;
  f_carbs_per_100g : json;
  f_shelf_life_room : json;
  f_shelf_life_fridge : json;
  f_shelf_life_freezer : json;
}.

Definition field_errors {A} (loc : string) (r : error_type + A) :
    list error_details :=
  match r with
  | inl e => [(loc, e)]
  | inr _ => []
  end.

(** Every line of the [ValidationError] that [Ingredient], called with the
    keyword arguments [kw], would raise, in field order; empty when every
    field validates. *)
Definition Ingredient_errors (kw : fields) : list error_details :=
  field_errors "name" (validate_str (f_name kw))
  ++ field_errors "type"
       (validate_enum IngredientType_value IngredientType_members (f_type kw))
  ++ field_errors "units_of_measurement"
       (validate_enum UnitOfMeasurement_value UnitOfMeasurement_members
          (f_units_of_measurement kw))
  ++ field_errors "calories_per_100g" (validate_float (f_calories_per_100g kw))
  ++ field_errors "protein_per_100g" (validate_float (f_protein_per_100g kw))
  ++ field_errors "fat_per_100g" (validate_float (f_fat_per_100g kw))
  ++ field_errors "carbs_per_100g" (validate_float (f_carbs_per_100g kw))
  ++ field_errors "shelf_life_room"
       (validate_optional_int (f_shelf_life_room kw))
  ++ field_errors "shelf_life_fridge"
       (validate_optional_int (f_shelf_life_fridge kw))
  ++ field_errors "shelf_life_freezer"
       (validate_optional_int (f_shelf_life_freezer kw)).

(** [Ingredient] called with the keyword arguments [kw]. *)
Definition Ingredient_init (kw : fields) : result Ingredient :=
  match
    validate_str (f_name kw),
    validate_enum IngredientType_value IngredientType_members (f_type kw),
    validate_enum UnitOfMeasurement_value UnitOfMeasurement_members
      (f_units_of_measurement kw),
    validate_float (f_calories_per_100g kw),
    validate_float (f_protein_per_100g kw),
    validate_float (f_fat_per_100g kw),
    validate_float (f_carbs_per_100g kw),
    validate_optional_int (f_shelf_life_room kw),
    validate_optional_int (f_shelf_life_fridge kw),
    validate_optional_int (f_shelf_life_freezer kw)
  with
  | inr n, inr t, inr u, inr c, inr p, inr f, inr cb, inr sr, inr sf, inr sz =>
      Ok (mkIngredient n t u c p f cb sr sf sz)
  | _, _, _, _, _, _, _, _, _, _ =>
      Raise (ValidationError (Ingredient_errors kw))
  end.

End Validators.

(** ** notion.py *)

(** A page of the database.  Of the fields of the pydantic model [Page]
    only [properties] is read by the code below; [id] is kept as the
    page's identity. *)
Record Page : Type := mkPage {
  page_id : string;
  properties : gmap string (gmap string json);
}.

(** The fields of [NotionAPIDatabaseResponse] that the pagination loop
    reads. *)
Record NotionAPIDatabaseResponse : Type := mkResponse {
  results : list Page;
  next_cursor : option string;
  has_more : bool;
}.

(** The expression
    [properties.get("Name", {}).get("title", [{}])[0].get("text", {})
    .get("content")],
    which both [parse_ingredient_data] (for the name it logs) and
    [parse_ingredient_page] (for the field [name]) evaluate. *)
Definition title_text_content (properties : gmap string (gmap string json)) :
    result json :=
  first ← py_getitem0
    (dict_get (dict_get properties "Name" ∅) "title" (JList [JDict ∅]));
  text ← py_get first "text" (JDict ∅);
  py_get text "content" JNull.

(** [properties.get(prop, {}).get("select", {}).get("name")] *)
Definition select_name (properties : gmap string (gmap string json))
    (prop : string) : result json :=
  py_get (dict_get (dict_get properties prop ∅) "select" (JDict ∅)) "name"
    JNull.

(** [properties.get(prop, {}).get("number")] *)
Definition number (properties : gmap string (gmap string json))
    (prop : string) : json :=
  dict_get (dict_get properties prop ∅) "number" JNull.

(** The first half of [parse_ingredient_page]: the ten assignments that
    read the fields out of [page.properties], in the order of the source. *)
Definition extract_fields (page : Page) : result fields :=
  let properties := properties page in
  name ← title_text_content properties;
  type ← select_name properties "Type";
  units_of_measurement ← select_name properties "Units of Measurement";
  let calories_per_100g := number properties "Calories per 100g" in
  let protein_per_100g := number properties "Protein per 100g" in
  let fat_per_100g := number properties "Fat per 100g" in
  let carbs_per_100g := number properties "Carbohydrate per 100g" in
  let shelf_life_room := number properties "Shelf life room" in
  let shelf_life_fridge := number properties "Shelf life fridge" in
  let shelf_life_freezer := number properties "Shelf life freezer" in
  Ok (mkFields name type units_of_measurement calories_per_100g
        protein_per_100g fat_per_100g carbs_per_100g shelf_life_room
        shelf_life_fridge shelf_life_freezer).

(** What [logger.info] is called with. *)
Inductive log_record : Type :=
| Skipping_ingredient (page_name : json)
| Logged_exception (e : exn).

(** The [except (AttributeError, ValidationError)] clause. *)
Definition caught (e : exn) : bool :=
  match e with
  | AttributeError => true
  | ValidationError _ => true
  | _ => false
  end.

Section Parsing.
Context `{LaxCoercion}.

(** The second half of [parse_ingredient_page]: the call
    [Ingredient(name=name, ...,
    units_of_measurement=units_of_measurement.lower(), ...)].
    The arguments are evaluated first, and only [.lower()] can raise
    there. *)
Definition construct (x : fields) : result Ingredient :=
  lowered ← py_lower (f_units_of_measurement x);
  Ingredient_init
    (mkFields (f_name x) (f_type x) (JStr lowered) (f_calories_per_100g x)
       (f_protein_per_100g x) (f_fat_per_100g x) (f_carbs_per_100g x)
       (f_shelf_life_room x) (f_shelf_life_fridge x) (f_shelf_life_freezer x)).

Definition parse_ingredient_page (page : Page) : result Ingredient :=
  x ← extract_fields page;
  construct x.

(** The [for] loop of [parse_ingredient_data], with the list [ingredients]
    built so far and the records logged so far.  An exception that leaves
    the loop leaves the function: no list is returned then. *)
Fixpoint parse_ingredient_loop (database_data : list Page)
    (ingredients : list Ingredient) (log : list log_record) :
    list log_record * result (list Ingredient) :=
  match database_data with
  | [] => (log, Ok ingredients)
  | page :: rest =>
      match title_text_content (properties page) with
      | Raise e => (log, Raise e)
      | Ok page_name =>
          match parse_ingredient_page page with
          | Ok ingredient =>
              parse_ingredient_loop rest (ingredients ++ [ingredient]) log
          | Raise e =>
              if caught e then
                parse_ingredient_loop rest ingredients
                  (log ++ [Skipping_ingredient page_name; Logged_exception e])
              else (log, Raise e)
          end
      end
  end.

Definition parse_ingredient_data (database_data : list Page) :
    list log_record * result (list Ingredient) :=
  parse_ingredient_loop database_data [] [].

End Parsing.

(** *** NotionDatabase *)

(** The JSON body of the query: [page_size] always, [start_cursor] only
    when there is one. *)
Record Payload : Type := mkPayload {
  page_size : Z;
  start_cursor : option string;
}.

(** How a run of the [while] loop ends.  The loop has no bound of its own;
    the model runs it for at most [fuel] rounds and says so when that was
    not enough. *)
Inductive outcome (A : Type) : Type :=
| Returned (a : A)
| Raised (e : exn)
| Out_of_fuel.

Arguments Returned {A} a.
Arguments Raised {A} e.
Arguments Out_of_fuel {A}.

(** A call that returns or raises, seen as the end of a run. *)
Definition outcome_of_result {A} (r : result A) : outcome A :=
  match r with
  | Ok a => Returned a
  | Raise e => Raised e
  end.

Section Database.
Context `{LaxCoercion}.
Context {World : Type}.

(** [requests.post(url, headers=..., json=payload)], its [.json()] and the
    validation of that as a [NotionAPIDatabaseResponse]: the remote end.
    It sees the payload, may change the world, and
    answers a response or raises. *)
Variable post_query :
  Payload -> World -> World * result NotionAPIDatabaseResponse.

Definition _get_database_page (page_size : option Z)
    (start_cursor : option string) (w : World) :
    World * result NotionAPIDatabaseResponse :=
  let page_size := default 100 page_size in
  post_query (mkPayload page_size start_cursor) w.

(** The [while has_more] loop of [get_ingredients_data], from the values
    of [pages], [has_more] and [start_cursor] at the loop head. *)
Fixpoint fetch_loop (fuel : nat) (pages : list Page) (has_more : bool)
    (start_cursor : option string) (w : World) :
    World * outcome (list Page) :=
  if has_more then
    match fuel with
    | O => (w, Out_of_fuel)
    | S fuel' =>
        match _get_database_page None start_cursor w with
        | (w', Raise e) => (w', Raised e)
        | (w', Ok (mkResponse page_data_results page_data_next_cursor
                     page_data_has_more)) =>
            fetch_loop fuel' (pages ++ page_data_results) page_data_has_more
              page_data_next_cursor w'
        end
    end
  else (w, Returned pages).

Definition get_ingredients_data (fuel : nat) (w : World) :
    World * list log_record * outcome (list Ingredient) :=
  match fetch_loop fuel [] true None w with
  | (w', Returned pages) =>
      let (log, r) := parse_ingredient_data pages in
      (w', log, outcome_of_result r)
  | (w', Raised e) => (w', [], Raised e)
  | (w', Out_of_fuel) => (w', [], Out_of_fuel)
  end.

End Database.

(** *** A scripted remote end

    As [unittest.mock] does with [side_effect]: the answers are handed out
    in order, one per call, and every call is recorded. *)
Record Mock : Type := mkMock {
  side_effect : list (result NotionAPIDatabaseResponse);
  calls : list Payload;
}.

Definition mock_post (payload : Payload) (m : Mock) :
    Mock * result NotionAPIDatabaseResponse :=
  match side_effect m with
  | [] => (mkMock [] (calls m ++ [payload]), Raise StopIteration)
  | r :: rest => (mkMock rest (calls m ++ [payload]), r)
  end.

(** ** Records used in the statements below *)

(** The shapes that Notion gives to a title, a select and a number
    property (the fixture of [tests/unit/test_notion.py] is built from
    them). *)
Definition title_property (content : string) : gmap string json :=
  {[ "title" :=
       JList [JDict {[ "text" := JDict {[ "content" := JStr content ]} ]}] ]}.

Definition select_property (option_name : string) : gmap string json :=
  {[ "select" := JDict {[ "name" := JStr option_name ]} ]}.

Definition number_property (v : json) : gmap string json :=
  {[ "number" := v ]}.

(** The two pages of [mock_notion_response].  The literal [3.6] of the
    fixture is the binary64 number written here in hexadecimal, and so are
    [2.7] and [0.3]. *)
Definition chicken_page : Page :=
  mkPage "page_id_1"
    (list_to_map
       [("Name", title_property "Chicken");
        ("Type", select_property "Protein");
        ("Units of Measurement", select_property "grams");
        ("Calories per 100g", number_property (JInt 165));
        ("Protein per 100g", number_property (JInt 31));
        ("Fat per 100g", number_property (JFloat 0x1.ccccccccccccdp+1));
        ("Carbohydrate per 100g", number_property (JInt 0));
        ("Shelf life room", number_property (JInt 1));
        ("Shelf life fridge", number_property (JInt 3));
        ("Shelf life freezer", number_property (JInt 90));
        ("Substitutions",
         {[ "rich_text" :=
              JList
                [JDict
                   {[ "text" := JDict {[ "content" := JStr "Turkey, Tofu" ]} ]}]
         ]})]).

Definition rice_page : Page :=
  mkPage "page_id_2"
    (list_to_map
       [("Name", title_property "Rice");
        ("Type", select_property "Grain");
        ("Units of Measurement", select_property "grams");
        ("Calories per 100g", number_property (JInt 130));
        ("Protein per 100g", number_property (JFloat 0x1.599999999999ap+1));
        ("Fat per 100g", number_property (JFloat 0x1.3333333333333p-2));
        ("Carbohydrate per 100g", number_property (JInt 28));
        ("Shelf life room", number_property (JInt 365));
        ("Shelf life fridge", number_property JNull);
        ("Shelf life freezer", number_property JNull)]).

Definition chicken : Ingredient :=
  mkIngredient "Chicken" PROTEIN GRAMS 165 31 0x1.ccccccccccccdp+1 0
    (Some 1) (Some 3) (Some 90).

Definition rice : Ingredient :=
  mkIngredient "Rice" GRAIN GRAMS 130 0x1.599999999999ap+1
    0x1.3333333333333p-2 28 (Some 365) None None.

(** [page] with the property [prop] replaced by a number property holding
    [v]. *)
Definition with_number (prop : string) (v : json) (page : Page) : Page :=
  mkPage (page_id page) (<[prop := number_property v]> (properties page)).

(** [page] with the property [prop] replaced by [p]. *)
Definition with_property (prop : string) (p : gmap string json) (page : Page) :
    Page :=
  mkPage (page_id page) (<[prop := p]> (properties page)).

(** A page with no properties at all. *)
Definition empty_page : Page := mkPage "page_id_0" ∅.

(** A page whose title is blank: Notion sends an empty [title] list. *)
Definition blank_title_page : Page :=
  with_property "Name" {[ "title" := JList [] ]} chicken_page.

(** A page whose name is the empty text. *)
Definition empty_name_page : Page :=
  with_property "Name" (title_property "") chicken_page.

(** A page whose [Type] select is not set: Notion sends [null] for it. *)
Definition unset_type_page : Page :=
  with_property "Type" {[ "select" := JNull ]} chicken_page.

(** A page without the property [Units of Measurement]. *)
Definition no_units_page : Page :=
  mkPage "page_id_1" (delete "Units of Measurement" (properties chicken_page)).

(** A page whose unit is written in capitals. *)
Definition capital_units_page : Page :=
  with_property "Units of Measurement" (select_property "GRAMS") chicken_page.

(** A page that keeps for a day and a half at room temperature. *)
Definition half_day_page : Page :=
  with_number "Shelf life room" (JFloat 0x1.8p+0) chicken_page.

(** ** Notions of the specification, made explicit *)

(** A JSON number read as a [float]: what a required per-100g field must
    hold. *)
Definition number_value (v : json) : option PrimFloat.float :=
  match v with
  | JFloat f => Some f
  | JInt z => float_of_int z
  | _ => None
  end.

(** What an optional shelf-life field must hold: nothing, or a whole
    number of days. *)
Definition day_count (v : json) : option (option Z) :=
  match v with
  | JNull => Some None
  | JInt z => Some (Some z)
  | JFloat f =>
      match float_as_int f with
      | inr z => Some (Some z)
      | inl _ => None
      end
  | _ => None
  end.

(** "All required fields are present and the enum-valued fields are within
    range", read on the extracted fields: no required field is the absence
    marker, the type is one of the twelve labels, and the unit, lowered, is
    ["grams"]. *)
Definition present (v : json) : bool :=
  match v with
  | JNull => false
  | _ => true
  end.

Definition required_present_enums_in_range (x : fields) : bool :=
  present (f_name x)
  && present (f_calories_per_100g x)
  && present (f_protein_per_100g x)
  && present (f_fat_per_100g x)
  && present (f_carbs_per_100g x)
  && match f_type x, f_units_of_measurement x with
     | JStr t, JStr u =>
         bool_decide (t ∈ map IngredientType_value IngredientType_members)
         && bool_decide (lower u ∈ map UnitOfMeasurement_value
                                      UnitOfMeasurement_members)
     | _, _ => false
     end.

(** The shape that the navigation of [extract_fields] relies on: a title
    that is present is a non-empty list whose first element is a [dict]
    with, if any, a [dict] under ["text"]; a select that is present is a
    [dict]. *)
Definition title_shape (properties : gmap string (gmap string json)) : bool :=
  match dict_get properties "Name" ∅ !! "title" with
  | None => true
  | Some (JList (JDict first :: _)) =>
      match first !! "text" with
      | None => true
      | Some (JDict _) => true
      | Some _ => false
      end
  | Some _ => false
  end.

Definition select_shape (properties : gmap string (gmap string json))
    (prop : string) : bool :=
  match dict_get properties prop ∅ !! "select" with
  | None => true
  | Some (JDict _) => true
  | Some _ => false
  end.

Definition well_shaped (page : Page) : bool :=
  title_shape (properties page)
  && select_shape (properties page) "Type"
  && select_shape (properties page) "Units of Measurement".

Section Outcomes.
Context `{LaxCoercion}.

(** The ingredients that the pages of a list construct, page by page. *)
Definition constructed (database_data : list Page) : list Ingredient :=
  omap (fun page =>
          match parse_ingredient_page page with
          | Ok ingredient => Some ingredient
          | Raise _ => None
          end) database_data.

(** What is logged for the pages of a list, page by page: nothing for a
    page that constructs, two records for one whose construction raises. *)
Definition diagnostics (database_data : list Page) : list log_record :=
  flat_map (fun page =>
              match title_text_content (properties page),
                    parse_ingredient_page page with
              | Ok page_name, Raise e =>
                  [Skipping_ingredient page_name; Logged_exception e]
              | _, _ => []
              end) database_data.

End Outcomes.

(** The coercion that takes only numbers for numbers.  It serves where a
    statement needs some coercion and no record in it holds a string or a
    boolean in the place of a number. *)
Definition numbers_only : LaxCoercion :=
  {| str_as_float := fun _ => None;
     str_as_int := fun _ => None;
     bool_as_float := fun _ => None;
     bool_as_int := fun _ => None |}.

(** What [extract_fields] reads from [chicken_page], for a given value of
    the unit. *)
Definition chicken_fields (units : json) : fields :=
  mkFields (JStr "Chicken") (JStr "Protein") units (JInt 165) (JInt 31)
    (JFloat 0x1.ccccccccccccdp+1) (JInt 0) (JInt 1) (JInt 3) (JInt 90).

(** The two answers of [test_get_ingredients_data_multiple_pages]. *)
Definition first_response : NotionAPIDatabaseResponse :=
  mkResponse [chicken_page; rice_page] (Some "next_page_cursor") true.

Definition second_response : NotionAPIDatabaseResponse :=
  mkResponse [chicken_page; rice_page] None false.

(** An answer that announces more pages and gives no cursor for them, and
    one that gives the cursor ["c"]. *)
Definition cursorless_response : NotionAPIDatabaseResponse :=
  mkResponse [rice_page] None true.

Definition same_cursor_response : NotionAPIDatabaseResponse :=
  mkResponse [rice_page] (Some "c") true.

(** A batch with a record to drop in the middle and a record that
    occurs twice. *)
Definition mixed_batch : list Page :=
  [chicken_page; no_units_page; rice_page; chicken_page].

(** [chicken] under another name. *)
Definition renamed (new_name : string) (ingredient : Ingredient) : Ingredient :=
  mkIngredient new_name (type ingredient) (units_of_measurement ingredient)
    (calories_per_100g ingredient) (protein_per_100g ingredient)
    (fat_per_100g ingredient) (carbs_per_100g ingredient)
    (shelf_life_room ingredient) (shelf_life_fridge ingredient)
    (shelf_life_freezer ingredient).

(** Fields with a type and a unit that the enumerations do not have. *)
Definition meat_kilograms_fields : fields :=
  mkFields (JStr "Chicken") (JStr "Meat") (JStr "Kilograms") (JInt 165)
    (JInt 31) (JFloat 0x1.ccccccccccccdp+1) (JInt 0) (JInt 1) (JInt 3)
    (JInt 90).

(** The fields of a record without any property. *)
Definition absent_fields : fields :=
  mkFields JNull JNull JNull JNull JNull JNull JNull JNull JNull JNull.

(** The requests that the pagination loop sends for a list of cursors. *)
Definition requests (cursors : list (option string)) : list Payload :=
  map (mkPayload 100) cursors.

(** ** The rest of the two modules *)

(** [IngredientType.__str__]: the value of the member. *)
Definition IngredientType__str__ (t : IngredientType) : string :=
  IngredientType_value t.

(** The names of the properties that [parse_ingredient_page] reads. *)
Definition known_properties : list string :=
  ["Name"; "Type"; "Units of Measurement"; "Calories per 100g";
   "Protein per 100g"; "Fat per 100g"; "Carbohydrate per 100g";
   "Shelf life room"; "Shelf life fridge"; "Shelf life freezer"].

(** [page] without the property [prop]. *)
Definition without_property (prop : string) (page : Page) : Page :=
  mkPage (page_id page) (delete prop (properties page)).

(** The two attributes of a [NotionDatabase]. *)
Record NotionDatabase : Type := mkNotionDatabase {
  database_id : string;
  base_url : string;
}.

(** [NotionDatabase.__init__] *)
Definition NotionDatabase__init__ (database_id : string) : NotionDatabase :=
  mkNotionDatabase database_id
    ("https://api.notion.com/v1/databases/" +:+ database_id).

(** The [url] of [_get_database_page]: [f"{self.base_url}/query"]. *)
Definition query_url (self : NotionDatabase) : string :=
  base_url self +:+ "/query".

(** The [payload] of [_get_database_page]: the dict that is sent as the
    JSON body of the request. *)
Definition request_body (page_size : option Z) (start_cursor : option string) :
    gmap string json :=
  let page_size := default 100 page_size in
  match start_cursor with
  | None => {[ "page_size" := JInt page_size ]}
  | Some start_cursor =>
      {[ "page_size" := JInt page_size; "start_cursor" := JStr start_cursor ]}
  end.

(** A remote end that never runs out of pages: it records the request and
    answers a page, a cursor and [has_more = True], every time. *)
Definition endless_post (payload : Payload) (seen : list Payload) :
    list Payload * result NotionAPIDatabaseResponse :=
  (seen ++ [payload], Ok (mkResponse [rice_page] (Some "next") true)).

(** The exception classes that the navigation of a title can raise. *)
Definition navigation_error (e : exn) : bool :=
  match e with
  | AttributeError => true
  | IndexError => true
  | KeyError => true
  | TypeError => true
  | _ => false
  end.

(** [x] with another value for the unit. *)
Definition with_units (units : json) (x : fields) : fields :=
  mkFields (f_name x) (f_type x) units (f_calories_per_100g x)
    (f_protein_per_100g x) (f_fat_per_100g x) (f_carbs_per_100g x)
    (f_shelf_life_room x) (f_shelf_life_fridge x) (f_shelf_life_freezer x).

(** The first page of the fixture as
    [test_parse_ingredient_data_with_invalid_page] spoils it: no number of
    calories. *)
Definition no_calories_page : Page :=
  with_number "Calories per 100g" JNull chicken_page.

(** What [extract_fields] reads from [no_calories_page]. *)
Definition no_calories_fields : fields :=
  mkFields (JStr "Chicken") (JStr "Protein") (JStr "grams") JNull (JInt 31)
    (JFloat 0x1.ccccccccccccdp+1) (JInt 0) (JInt 1) (JInt 3) (JInt 90).

(** What [extract_fields] reads from [rice_page]. *)
Definition rice_fields : fields :=
  mkFields (JStr "Rice") (JStr "Grain") (JStr "grams") (JInt 130)
    (JFloat 0x1.599999999999ap+1) (JFloat 0x1.3333333333333p-2) (JInt 28)
    (JInt 365) JNull JNull.

(** ** The value at a path of a record

    What the specification calls "the extracted value or an absence
    marker", said without the code's default objects: follow the path
    through the record, and answer the value found at its end, or the
    absence marker as soon as a property or a sub-key on the path is
    missing. *)

(** The first element of a list, if it has one. *)
Definition json_first (v : json) : option json :=
  match v with
  | JList (x :: _) => Some x
  | _ => None
  end.

(** The value under a key of a dict, if it has the key. *)
Definition json_key (k : string) (v : json) : option json :=
  match v with
  | JDict d => d !! k
  | _ => None
  end.

(** Name / title / first element / text / content *)
Definition title_at_path (properties : gmap string (gmap string json)) : json :=
  default JNull
    (name ← properties !! "Name";
     title ← name !! "title";
     first ← json_first title;
     text ← json_key "text" first;
     json_key "content" text).

(** [prop] / select / name *)
Definition select_at_path (properties : gmap string (gmap string json))
    (prop : string) : json :=
  default JNull
    (property ← properties !! prop;
     select ← property !! "select";
     json_key "name" select).

(** [prop] / number *)
Definition number_at_path (properties : gmap string (gmap string json))
    (prop : string) : json :=
  default JNull (property ← properties !! prop; property !! "number").

(** The ten known fields, each with the value at its path. *)
Definition fields_at_paths (page : Page) : fields :=
  mkFields
    (title_at_path (properties page))
    (select_at_path (properties page) "Type")
    (select_at_path (properties page) "Units of Measurement")
    (number_at_path (properties page) "Calories per 100g")
    (number_at_path (properties page) "Protein per 100g")
    (number_at_path (properties page) "Fat per 100g")
    (number_at_path (properties page) "Carbohydrate per 100g")
    (number_at_path (properties page) "Shelf life room")
    (number_at_path (properties page) "Shelf life fridge")
    (number_at_path (properties page) "Shelf life freezer").

(** A page whose [Type] property is there without its ["select"] key, and
    whose calories property is there without its ["number"] key. *)
Definition missing_subkeys_page : Page :=
  with_property "Type" ∅ (with_property "Calories per 100g" ∅ chicken_page).

(** * Properties *)

(** ** Enumerations *)

Lemma enum_of_value_Some {E} (value : E -> string) members s m :
  enum_of_value value members s = Some m -> value m = s /\ m ∈ members.
Proof.
  intros Hfind. apply find_some in Hfind as [Hin Hvalue].
  split; [by apply bool_decide_eq_true in Hvalue | by apply list_elem_of_In].
Qed.

Lemma enum_of_value_None {E} (value : E -> string) members s :
  (forall m, value m <> s) -> enum_of_value value members s = None.
Proof.
  intros Hout. induction members as [|m members IH]; [done|].
  rewrite /enum_of_value /=. by rewrite bool_decide_eq_false_2.
Qed.

Lemma IngredientType_of_value t :
  enum_of_value IngredientType_value IngredientType_members
    (IngredientType_value t) = Some t.
Proof. by destruct t. Qed.

Lemma UnitOfMeasurement_of_value s :
  enum_of_value UnitOfMeasurement_value UnitOfMeasurement_members s
  = if bool_decide (s = "grams") then Some GRAMS else None.
Proof.
  rewrite /enum_of_value /=.
  destruct (bool_decide_reflect ("grams" = s)) as [<-|Hne]; [done|].
  by rewrite bool_decide_eq_false_2.
Qed.

Lemma validate_enum_inl {E} (value : E -> string) members v e :
  validate_enum value members v = inl e -> e = enum.
Proof.
  rewrite /validate_enum => Hv. repeat case_match; by simplify_eq.
Qed.

Lemma validate_enum_outside {E} (value : E -> string) members v :
  (forall m, v <> JStr (value m)) -> validate_enum value members v = inl enum.
Proof.
  intros Hout. destruct v as [| | | |s| |]; try done.
  rewrite /validate_enum enum_of_value_None; [|done].
  intros m Hm. apply (Hout m). by rewrite Hm.
Qed.

(** ** The pydantic model *)

Section Model.
Context `{LaxCoercion}.

Lemma validate_float_number v f :
  number_value v = Some f -> validate_float v = inr f.
Proof.
  destruct v; simpl; try done.
  - by intros ->.
  - by intros [= ->].
Qed.

Lemma validate_optional_int_day_count v d :
  day_count v = Some d -> validate_optional_int v = inr d.
Proof.
  destruct v as [| |z|f| | |]; simpl; try done.
  - by intros [= <-].
  - by intros [= <-].
  - destruct (float_as_int f); by intros [= <-].
Qed.

(** [Ingredient(...)] either answers the object and there is no error to
    report, or raises the [ValidationError] that lists the errors of all
    fields, and there is one at least. *)
Lemma Ingredient_init_cases kw :
  (exists ingredient,
      Ingredient_init kw = Ok ingredient /\ Ingredient_errors kw = [])
  \/ (Ingredient_init kw = Raise (ValidationError (Ingredient_errors kw))
      /\ Ingredient_errors kw <> []).
Proof.
  rewrite /Ingredient_init /Ingredient_errors.
  destruct (validate_str _); [by right|].
  destruct (validate_enum IngredientType_value _ _); [by right|].
  destruct (validate_enum UnitOfMeasurement_value _ _); [by right|].
  do 4 (destruct (validate_float _); [by right|]).
  do 3 (destruct (validate_optional_int _); [by right|]).
  left. by eexists.
Qed.

Lemma Ingredient_init_Raise kw e :
  Ingredient_init kw = Raise e -> e = ValidationError (Ingredient_errors kw).
Proof.
  destruct (Ingredient_init_cases kw) as [(i & -> & _)|[-> _]]; congruence.
Qed.

Lemma Ingredient_init_Ok kw n t u c p f cb sr sf sz :
  validate_str (f_name kw) = inr n ->
  validate_enum IngredientType_value IngredientType_members (f_type kw)
  = inr t ->
  validate_enum UnitOfMeasurement_value UnitOfMeasurement_members
    (f_units_of_measurement kw) = inr u ->
  validate_float (f_calories_per_100g kw) = inr c ->
  validate_float (f_protein_per_100g kw) = inr p ->
  validate_float (f_fat_per_100g kw) = inr f ->
  validate_float (f_carbs_per_100g kw) = inr cb ->
  validate_optional_int (f_shelf_life_room kw) = inr sr ->
  validate_optional_int (f_shelf_life_fridge kw) = inr sf ->
  validate_optional_int (f_shelf_life_freezer kw) = inr sz ->
  Ingredient_init kw = Ok (mkIngredient n t u c p f cb sr sf sz).
Proof.
  rewrite /Ingredient_init.
  by intros -> -> -> -> -> -> -> -> -> ->.
Qed.

Lemma Ingredient_init_Ok_inv kw ingredient :
  Ingredient_init kw = Ok ingredient ->
  validate_str (f_name kw) = inr (name ingredient)
  /\ validate_enum IngredientType_value IngredientType_members (f_type kw)
     = inr (type ingredient)
  /\ validate_enum UnitOfMeasurement_value UnitOfMeasurement_members
       (f_units_of_measurement kw) = inr (units_of_measurement ingredient)
  /\ validate_float (f_calories_per_100g kw)
     = inr (calories_per_100g ingredient)
  /\ validate_float (f_protein_per_100g kw)
     = inr (protein_per_100g ingredient)
  /\ validate_float (f_fat_per_100g kw) = inr (fat_per_100g ingredient)
  /\ validate_float (f_carbs_per_100g kw) = inr (carbs_per_100g ingredient)
  /\ validate_optional_int (f_shelf_life_room kw)
     = inr (shelf_life_room ingredient)
  /\ validate_optional_int (f_shelf_life_fridge kw)
     = inr (shelf_life_fridge ingredient)
  /\ validate_optional_int (f_shelf_life_freezer kw)
     = inr (shelf_life_freezer ingredient).
Proof.
  rewrite /Ingredient_init.
  destruct (validate_str _); [done|].
  destruct (validate_enum IngredientType_value _ _); [done|].
  destruct (validate_enum UnitOfMeasurement_value _ _); [done|].
  do 4 (destruct (validate_float _); [done|]).
  do 3 (destruct (validate_optional_int _); [done|]).
  by intros [= <-].
Qed.

(** An error of one field is a line of the [ValidationError]. *)
Lemma Ingredient_init_type_error kw e :
  validate_enum IngredientType_value IngredientType_members (f_type kw)
  = inl e ->
  Ingredient_init kw = Raise (ValidationError (Ingredient_errors kw))
  /\ ("type", e) ∈ Ingredient_errors kw.
Proof.
  intros Hv. split.
  - destruct (Ingredient_init_cases kw) as [(i & Hi & _)|[-> _]]; [|done].
    apply Ingredient_init_Ok_inv in Hi. destruct Hi as (_ & Ht & _).
    congruence.
  - rewrite /Ingredient_errors Hv /=.
    apply elem_of_app; right. by left.
Qed.

Lemma Ingredient_init_units_error kw e :
  validate_enum UnitOfMeasurement_value UnitOfMeasurement_members
    (f_units_of_measurement kw) = inl e ->
  Ingredient_init kw = Raise (ValidationError (Ingredient_errors kw))
  /\ ("units_of_measurement", e) ∈ Ingredient_errors kw.
Proof.
  intros Hv. split.
  - destruct (Ingredient_init_cases kw) as [(i & Hi & _)|[-> _]]; [|done].
    apply Ingredient_init_Ok_inv in Hi. destruct Hi as (_ & _ & Hu & _).
    congruence.
  - rewrite /Ingredient_errors Hv /=.
    apply elem_of_app; right. apply elem_of_app; right. by left.
Qed.

End Model.

(** ** Extraction *)

Lemma title_text_content_shape properties :
  is_Ok (title_text_content properties) = title_shape properties.
Proof.
  rewrite /title_text_content /title_shape.
  destruct (dict_get properties "Name" ∅ !! "title") as [v|] eqn:Htitle;
    rewrite {1}/dict_get Htitle /=; [|done].
  destruct v as [| | | |s|[|first l]|d]; try done; [by destruct s|].
  destruct first as [| | | | | |d]; try done.
  rewrite /= /dict_get. destruct (d !! "text") as [[]|]; done.
Qed.

Lemma select_name_shape properties prop :
  is_Ok (select_name properties prop) = select_shape properties prop.
Proof.
  rewrite /select_name /select_shape.
  destruct (dict_get properties prop ∅ !! "select") as [v|] eqn:Hselect;
    rewrite {1}/dict_get Hselect /=; [|done].
  by destruct v.
Qed.

(** A select can only fail with [AttributeError]. *)
Lemma select_name_Raise properties prop e :
  select_name properties prop = Raise e -> e = AttributeError.
Proof.
  rewrite /select_name.
  destruct (dict_get _ "select" _); simpl; congruence.
Qed.


Lemma extract_fields_intro page n t u :
  title_text_content (properties page) = Ok n ->
  select_name (properties page) "Type" = Ok t ->
  select_name (properties page) "Units of Measurement" = Ok u ->
  extract_fields page
  = Ok (mkFields n t u
          (number (properties page) "Calories per 100g")
          (number (properties page) "Protein per 100g")
          (number (properties page) "Fat per 100g")
          (number (properties page) "Carbohydrate per 100g")
          (number (properties page) "Shelf life room")
          (number (properties page) "Shelf life fridge")
          (number (properties page) "Shelf life freezer")).
Proof. rewrite /extract_fields. by intros -> -> ->. Qed.

Lemma extract_fields_shape page :
  is_Ok (extract_fields page) = well_shaped page.
Proof.
  rewrite /well_shaped -title_text_content_shape -!select_name_shape.
  rewrite /extract_fields.
  destruct (title_text_content _); [|done].
  destruct (select_name _ "Type"); [|done].
  by destruct (select_name _ "Units of Measurement").
Qed.

(** When the name can be read, whatever else goes wrong in
    [extract_fields] is an [AttributeError]. *)
Lemma extract_fields_Raise page n e :
  title_text_content (properties page) = Ok n ->
  extract_fields page = Raise e -> e = AttributeError.
Proof.
  rewrite /extract_fields => -> /=.
  destruct (select_name _ "Type") eqn:Ht;
    [|intros [= <-]; by eapply select_name_Raise].
  destruct (select_name _ "Units of Measurement") eqn:Hu; [done|].
  intros [= <-]; by eapply select_name_Raise.
Qed.

(** ** Construction *)

Section Construction.
Context `{LaxCoercion}.

Lemma construct_Raise x e : construct x = Raise e -> caught e = true.
Proof.
  rewrite /construct. destruct (py_lower _) as [u|e'] eqn:Hu; simpl.
  - by intros ->%Ingredient_init_Raise.
  - intros [= <-]. revert Hu.
    destruct (f_units_of_measurement x); simpl; by intros [= <-].
Qed.

(** With a name that can be read, [parse_ingredient_page] only raises what
    [parse_ingredient_data] catches. *)
Lemma parse_ingredient_page_Raise page n e :
  title_text_content (properties page) = Ok n ->
  parse_ingredient_page page = Raise e -> caught e = true.
Proof.
  intros Hn. rewrite /parse_ingredient_page.
  destruct (extract_fields page) as [x|e'] eqn:Hx; simpl.
  - apply construct_Raise.
  - intros [= <-]. by rewrite (extract_fields_Raise _ _ _ Hn Hx).
Qed.

(** The [for] loop, from any state of its two accumulators, when every
    name can be read: it ends, having appended what the pages construct
    and what is logged for them. *)
Lemma parse_ingredient_loop_complete database_data ingredients log :
  Forall (fun page => is_Ok (title_text_content (properties page)) = true)
    database_data ->
  parse_ingredient_loop database_data ingredients log
  = (log ++ diagnostics database_data,
     Ok (ingredients ++ constructed database_data)).
Proof.
  intros Hnames. revert ingredients log.
  induction Hnames as [|page rest Hname _ IH]; intros ingredients log.
  { by rewrite /= !app_nil_r. }
  rewrite /= /constructed /diagnostics /=.
  destruct (title_text_content (properties page)) as [n|] eqn:Hn; [|done].
  destruct (parse_ingredient_page page) as [i|e] eqn:Hpage.
  - by rewrite IH /= -app_assoc.
  - rewrite (parse_ingredient_page_Raise _ _ _ Hn Hpage) IH.
    by rewrite -app_assoc.
Qed.

(** If the loop ends with a list, every name could be read. *)
Lemma parse_ingredient_loop_Ok database_data ingredients log log' out :
  parse_ingredient_loop database_data ingredients log = (log', Ok out) ->
  Forall (fun page => is_Ok (title_text_content (properties page)) = true)
    database_data.
Proof.
  revert ingredients log.
  induction database_data as [|page rest IH]; intros ingredients log;
    [by constructor|].
  rewrite /=.
  destruct (title_text_content (properties page)) as [n|] eqn:Hn; [|done].
  destruct (parse_ingredient_page page) as [i|e].
  - intros Hrest%IH. constructor; [by rewrite Hn|done].
  - destruct (caught e); [|done].
    intros Hrest%IH. constructor; [by rewrite Hn|done].
Qed.

End Construction.

(** ** Pagination against a scripted remote end *)

Lemma fetch_loop_done {World} (post : Payload -> World -> _) fuel pages
    cursor w :
  fetch_loop post fuel pages false cursor w = (w, Returned pages).
Proof. by destruct fuel. Qed.

(** One round of the loop: the request carries the cursor of the loop
    head, and the answer's records, flag and cursor become the next loop
    head. *)
Lemma fetch_loop_step fuel pages cursor r script cs :
  fetch_loop mock_post (S fuel) pages true cursor (mkMock (Ok r :: script) cs)
  = fetch_loop mock_post fuel (pages ++ results r) (has_more r)
      (next_cursor r) (mkMock script (cs ++ [mkPayload 100 cursor])).
Proof. by destruct r. Qed.

(** The whole run over a script whose answers all say [has_more] but the
    last. *)
Lemma fetch_loop_script init last script fuel pages cursor cs :
  Forall (fun r => has_more r = true) init ->
  has_more last = false ->
  (length init < fuel)%nat ->
  fetch_loop mock_post fuel pages true cursor
    (mkMock (map Ok (init ++ [last]) ++ script) cs)
  = (mkMock script (cs ++ requests (cursor :: map next_cursor init)),
     Returned (pages ++ concat (map results (init ++ [last])))).
Proof.
  intros Hmore Hlast. revert fuel pages cursor cs.
  induction Hmore as [|r init Hr _ IH]; intros fuel pages cursor cs Hfuel.
  - destruct fuel as [|fuel]; [by inversion Hfuel|].
    cbn [map app]. rewrite fetch_loop_step Hlast fetch_loop_done.
    by rewrite /= app_nil_r.
  - destruct fuel as [|fuel]; [by inversion Hfuel|].
    cbn [map app]. rewrite fetch_loop_step Hr IH; [simpl in Hfuel; lia|].
    by rewrite /= -!app_assoc.
Qed.

Lemma requests_NoDup cursors : NoDup cursors -> NoDup (requests cursors).
Proof. apply NoDup_fmap_2. by intros c1 c2 [= ->]. Qed.

(** ** Overriding a property *)







(** ** The claims about one record *)

Section Record_claims.
Context `{LaxCoercion}.

(** What [construct] answers for fields that are all well-typed. *)
Lemma construct_valid x n t u c p f cb sr sf sz :
  f_name x = JStr n ->
  f_type x = JStr (IngredientType_value t) ->
  f_units_of_measurement x = JStr u ->
  lower u = "grams" ->
  number_value (f_calories_per_100g x) = Some c ->
  number_value (f_protein_per_100g x) = Some p ->
  number_value (f_fat_per_100g x) = Some f ->
  number_value (f_carbs_per_100g x) = Some cb ->
  day_count (f_shelf_life_room x) = Some sr ->
  day_count (f_shelf_life_fridge x) = Some sf ->
  day_count (f_shelf_life_freezer x) = Some sz ->
  construct x = Ok (mkIngredient n t GRAMS c p f cb sr sf sz).
Proof.
  intros Hn Ht Hu Hlow Hc Hp Hf Hcb Hsr Hsf Hsz.
  rewrite /construct Hu /= Hlow.
  apply Ingredient_init_Ok; simpl;
    try by (apply validate_float_number
            || apply validate_optional_int_day_count).
  - by rewrite Hn.
  - by rewrite Ht /validate_enum IngredientType_of_value.
  - done.
Qed.

(** C1 (as amended): for every raw record from which the fields can be
    read, whose name is text, whose type is one of the twelve labels, whose
    unit is text that lowers to "grams", whose four per-100g values are
    each a float or an integer that [float] converts without overflow, and
    whose shelf-life values are each absent, an integer, or a float
    without fractional part strictly between -2^63 and 2^63,
    [parse_ingredient_page] succeeds; the Ingredient carries the extracted
    name, the type of that label, the unit whose value is the lowered
    text, the four numbers as floats and the shelf-life day counts. *)
Theorem valid_record_constructs page x n t u c p f cb sr sf sz :
  extract_fields page = Ok x ->
  f_name x = JStr n ->
  f_type x = JStr (IngredientType_value t) ->
  f_units_of_measurement x = JStr u ->
  lower u = "grams" ->
  number_value (f_calories_per_100g x) = Some c ->
  number_value (f_protein_per_100g x) = Some p ->
  number_value (f_fat_per_100g x) = Some f ->
  number_value (f_carbs_per_100g x) = Some cb ->
  day_count (f_shelf_life_room x) = Some sr ->
  day_count (f_shelf_life_fridge x) = Some sf ->
  day_count (f_shelf_life_freezer x) = Some sz ->
  exists ingredient,
    parse_ingredient_page page = Ok ingredient
    /\ ingredient = mkIngredient n t GRAMS c p f cb sr sf sz
    /\ UnitOfMeasurement_value (units_of_measurement ingredient) = lower u.
Proof.
  intros Hx Hn Ht Hu Hlow Hc Hp Hf Hcb Hsr Hsf Hsz.
  eexists. split; [|by split].
  rewrite /parse_ingredient_page Hx /=. by eapply construct_valid.
Qed.


(** C7 (as amended): enumeration membership is checked for [type] and,
    after lowering, for [units_of_measurement].  Whenever the unit is
    text, a type that is none of the twelve labels, and a unit whose
    lowered text is not "grams", each make the construction raise a
    ValidationError that has a line of kind [enum] for that field. *)
Theorem enum_membership_checked x lowered :
  py_lower (f_units_of_measurement x) = Ok lowered ->
  ((forall t, f_type x <> JStr (IngredientType_value t)) ->
   exists errors,
     construct x = Raise (ValidationError errors) /\ ("type", enum) ∈ errors)
  /\ (lowered <> "grams" ->
      exists errors,
        construct x = Raise (ValidationError errors)
        /\ ("units_of_measurement", enum) ∈ errors).
Proof.
  intros Hlow. rewrite /construct Hlow /=. split.
  - intros Hout%(validate_enum_outside _ IngredientType_members).
    eexists. by apply Ingredient_init_type_error.
  - intros Hne. eexists. apply Ingredient_init_units_error.
    cbn [f_units_of_measurement].
    rewrite /validate_enum UnitOfMeasurement_of_value.
    by rewrite bool_decide_eq_false_2.
Qed.

(** C8 (as amended): every successfully constructed Ingredient has a name
    that is text, and it is the text read from the record; it is never the
    absence marker.  (It can be the empty text.) *)
Theorem constructed_name_is_text page ingredient :
  parse_ingredient_page page = Ok ingredient ->
  exists x,
    extract_fields page = Ok x /\ f_name x = JStr (name ingredient).
Proof.
  rewrite /parse_ingredient_page.
  destruct (extract_fields page) as [x|]; [|done].
  rewrite /= /construct. destruct (py_lower _) as [u|]; [|done].
  intros (Hn & _)%Ingredient_init_Ok_inv. exists x. split; [done|].
  simpl in Hn. by destruct (f_name x); simplify_eq/=.
Qed.


End Record_claims.

Lemma number_absent (properties : gmap string (gmap string json)) prop :
  properties !! prop = None -> number properties prop = JNull.
Proof. intros Hp. by rewrite /number {2}/dict_get Hp. Qed.

Lemma title_text_content_at_path properties :
  title_shape properties = true ->
  title_text_content properties = Ok (title_at_path properties).
Proof.
  rewrite /title_shape /title_text_content /title_at_path /dict_get.
  destruct (properties !! "Name") as [name|]; simpl;
    [|by rewrite lookup_empty].
  destruct (name !! "title") as [v|]; [|done].
  destruct v as [| | | | |[|first l]|]; try done.
  destruct first as [| | | | | |first]; try done.
  rewrite /= /dict_get. by destruct (first !! "text") as [[]|].
Qed.

Lemma select_name_at_path properties prop :
  select_shape properties prop = true ->
  select_name properties prop = Ok (select_at_path properties prop).
Proof.
  rewrite /select_shape /select_name /select_at_path /dict_get.
  destruct (properties !! prop) as [property|]; simpl;
    [|by rewrite lookup_empty].
  destruct (property !! "select") as [v|]; [|done].
  by destruct v.
Qed.

Lemma number_is_at_path properties prop :
  number properties prop = number_at_path properties prop.
Proof.
  rewrite /number /number_at_path /dict_get.
  destruct (properties !! prop) as [property|]; simpl;
    [done|by rewrite lookup_empty].
Qed.

(** C4 (as amended): for every raw record that is well shaped (each title
    present is a non-empty list that starts with a dict whose "text", if
    any, is a dict; each select present is a dict), the extraction of the
    fields and of the display name does not fail.  For every one of the
    ten known field names it reads the value that stands at the field's
    path in the record, or the absence marker when the property or a
    sub-key on the path is missing; the display name is the value read
    for the name.  So a record with no property at all is read as ten
    absence markers. *)
Theorem well_shaped_record_is_extracted page :
  well_shaped page = true ->
  extract_fields page = Ok (fields_at_paths page)
  /\ title_text_content (properties page)
     = Ok (f_name (fields_at_paths page)).
Proof.
  rewrite /well_shaped.
  intros [[Htitle Htype]%andb_true_iff Hunits]%andb_true_iff.
  pose proof (title_text_content_at_path _ Htitle) as Hname.
  split; [|done].
  rewrite (extract_fields_intro _ _ _ _ Hname
             (select_name_at_path _ _ Htype)
             (select_name_at_path _ _ Hunits)).
  by rewrite !number_is_at_path.
Qed.

(** ** The claims about a batch and about pagination *)

Section Batch_claims.
Context `{LaxCoercion}.

(** Whenever [parse_ingredient_data] returns a list, it is the list of the
    Ingredients that its records construct, record by record: in the order
    of the records, without the records whose construction fails, and
    with one Ingredient for every record that constructs (none is merged
    with an equal one).  It returns this list whenever the display name of
    every record can be read. *)
Theorem entities_in_record_order database_data :
  (forall log out,
      parse_ingredient_data database_data = (log, Ok out) ->
      out = constructed database_data)
  /\ (Forall
        (fun page => is_Ok (title_text_content (properties page)) = true)
        database_data ->
      parse_ingredient_data database_data
      = (diagnostics database_data, Ok (constructed database_data))).
Proof.
  split.
  - intros log out Hout.
    pose proof (parse_ingredient_loop_Ok _ _ _ _ _ Hout) as Hnames.
    move: Hout. rewrite /parse_ingredient_data.
    rewrite parse_ingredient_loop_complete //. by intros [= _ <-].
  - intros Hnames.
    by rewrite /parse_ingredient_data parse_ingredient_loop_complete.
Qed.

(** C3: against a remote end that answers with N pages of which only the
    last says [has_more = false], and given fuel for N rounds,
    [get_ingredients_data] sends exactly N requests, the first without a
    cursor and each next one with the cursor of the answer before, uses
    up exactly these N answers, and its result is that of
    [parse_ingredient_data] on the records of the N pages, concatenated in
    order. *)
Theorem pagination_fetches_every_page init last script fuel :
  Forall (fun r => has_more r = true) init ->
  has_more last = false ->
  (length init < fuel)%nat ->
  get_ingredients_data mock_post fuel
    (mkMock (map Ok (init ++ [last]) ++ script) [])
  = (mkMock script (requests (None :: map next_cursor init)),
     (parse_ingredient_data (concat (map results (init ++ [last])))).1,
     outcome_of_result
       (parse_ingredient_data (concat (map results (init ++ [last])))).2)
  /\ length (requests (None :: map next_cursor init))
     = length (init ++ [last]).
Proof.
  intros Hmore Hlast Hfuel. split.
  - rewrite /get_ingredients_data fetch_loop_script //=.
    by destruct (parse_ingredient_data _).
  - by rewrite /requests length_map /= length_map length_app /= Nat.add_1_r.
Qed.

(** C2 (the code departs from the claim here): of the three records
    chicken, blank title, rice, the first and the third construct, so the
    list to return is [[chicken; rice]]; but [parse_ingredient_data]
    returns no list at all for them.  It is the defect of C5: the display
    name of the second record is read outside the [try]. *)
Theorem valid_records_not_returned :
  constructed [chicken_page; blank_title_page; rice_page] = [chicken; rice]
  /\ forall log out,
       parse_ingredient_data [chicken_page; blank_title_page; rice_page]
       <> (log, Ok out).
Proof. split; [by vm_compute|]. intros log out. by vm_compute. Qed.

(** C5 (the code departs from the claim here): a record with a blank
    title, between two valid records, makes [parse_ingredient_data] raise
    [IndexError]; no list is returned and nothing is logged.  So does
    [get_ingredients_data] when the remote end serves these records,
    although every request was answered. *)
Theorem blank_title_aborts_batch :
  parse_ingredient_data [chicken_page; blank_title_page; rice_page]
  = ([], Raise IndexError)
  /\ get_ingredients_data mock_post 1
       (mkMock
          [Ok (mkResponse [chicken_page; blank_title_page; rice_page]
                 None false)] [])
     = (mkMock [] [mkPayload 100 None], [], Raised IndexError).
Proof. split; by vm_compute. Qed.

(** C9 (as amended): against a remote end that answers with pages of
    which only the last says [has_more = false], however many they are,
    the requests sent are the one without a cursor and then one per
    cursor answered, in order; so no request is sent twice provided the
    cursors answered are present and differ from each other. *)
Theorem requests_follow_cursors init last script fuel :
  Forall (fun r => has_more r = true) init ->
  has_more last = false ->
  (length init < fuel)%nat ->
  calls
    (get_ingredients_data mock_post fuel
       (mkMock (map Ok (init ++ [last]) ++ script) [])).1.1
  = requests (None :: map next_cursor init)
  /\ (NoDup (None :: map next_cursor init) ->
      NoDup
        (calls
           (get_ingredients_data mock_post fuel
              (mkMock (map Ok (init ++ [last]) ++ script) [])).1.1)).
Proof.
  intros Hmore Hlast Hfuel.
  assert (calls
            (get_ingredients_data mock_post fuel
               (mkMock (map Ok (init ++ [last]) ++ script) [])).1.1
          = requests (None :: map next_cursor init)) as Hcalls.
  { rewrite /get_ingredients_data fetch_loop_script //=.
    by destruct (parse_ingredient_data _). }
  split; [done|]. rewrite Hcalls. apply requests_NoDup.
Qed.

End Batch_claims.

(** ** The claims on the records of the test fixture *)

(** C1, instance: the first page of the fixture constructs [chicken]. *)
Lemma valid_record_constructs_chicken :
  exists ingredient,
    @parse_ingredient_page numbers_only chicken_page = Ok ingredient
    /\ ingredient = chicken
    /\ UnitOfMeasurement_value (units_of_measurement ingredient)
       = lower "grams".
Proof.
  apply (@valid_record_constructs numbers_only chicken_page
           (chicken_fields (JStr "grams")) "Chicken" PROTEIN "grams");
    by vm_compute.
Defined.

(** C1, counterexample: in [half_day_page] every required field is present
    and both enum-valued fields are within range, yet the construction
    fails: a day and a half is no [int]. *)
Lemma fractional_shelf_life_rejected :
  extract_fields half_day_page
  = Ok (mkFields (JStr "Chicken") (JStr "Protein") (JStr "grams") (JInt 165)
          (JInt 31) (JFloat 0x1.ccccccccccccdp+1) (JInt 0)
          (JFloat 0x1.8p+0) (JInt 3) (JInt 90))
  /\ required_present_enums_in_range
       (mkFields (JStr "Chicken") (JStr "Protein") (JStr "grams") (JInt 165)
          (JInt 31) (JFloat 0x1.ccccccccccccdp+1) (JInt 0)
          (JFloat 0x1.8p+0) (JInt 3) (JInt 90)) = true
  /\ forall L : LaxCoercion,
       @parse_ingredient_page L half_day_page
       = Raise (ValidationError [("shelf_life_room", int_from_float)]).
Proof. split; [|split]; [by vm_compute..|intros L; by vm_compute]. Qed.

(** Of [mixed_batch] the record without a unit is dropped, the others
    come out in order, and the record that occurs twice comes out
    twice. *)
Lemma entities_in_record_order_mixed_batch :
  @parse_ingredient_data numbers_only mixed_batch
  = ([Skipping_ingredient (JStr "Chicken"); Logged_exception AttributeError],
     Ok [chicken; rice; chicken]).
Proof.
  apply (proj2 (@entities_in_record_order numbers_only mixed_batch)).
  repeat constructor.
Defined.

(** C3, instance: the two answers of
    [test_get_ingredients_data_multiple_pages]. *)
Lemma pagination_fetches_two_pages :
  @get_ingredients_data numbers_only _ mock_post 2
    (mkMock [Ok first_response; Ok second_response] [])
  = (mkMock [] [mkPayload 100 None; mkPayload 100 (Some "next_page_cursor")],
     [], Returned [chicken; rice; chicken; rice])
  /\ length [mkPayload 100 None; mkPayload 100 (Some "next_page_cursor")]
     = 2%nat.
Proof.
  apply (@pagination_fetches_every_page numbers_only [first_response]
           second_response [] 2%nat).
  - by repeat constructor.
  - reflexivity.
  - simpl. lia.
Defined.

(** C4, instance: a record with no property is read as ten absence
    markers, and so is its display name. *)
Lemma empty_record_is_extracted :
  extract_fields empty_page = Ok absent_fields
  /\ title_text_content (properties empty_page) = Ok JNull.
Proof.
  apply (well_shaped_record_is_extracted empty_page). by vm_compute.
Defined.

(** A property that is there without its sub-key is read as the absence
    marker, like a property that is not there. *)
Example extract_fields_missing_subkeys :
  extract_fields missing_subkeys_page
  = Ok (mkFields (JStr "Chicken") JNull (JStr "grams") JNull (JInt 31)
          (JFloat 0x1.ccccccccccccdp+1) (JInt 0) (JInt 1) (JInt 3)
          (JInt 90))
  /\ fields_at_paths missing_subkeys_page
     = mkFields (JStr "Chicken") JNull (JStr "grams") JNull (JInt 31)
         (JFloat 0x1.ccccccccccccdp+1) (JInt 0) (JInt 1) (JInt 3) (JInt 90).
Proof. split; by vm_compute. Qed.

Example extract_fields_empty_page :
  extract_fields empty_page = Ok absent_fields.
Proof. by vm_compute. Qed.

(** C4, counterexample: a select that is not set is [null] in the record,
    and reading the name of the option under it raises [AttributeError];
    [parse_ingredient_data] catches it and drops the record. *)
Lemma unset_select_extraction_fails :
  extract_fields unset_type_page = Raise AttributeError
  /\ forall L : LaxCoercion,
       @parse_ingredient_data L [unset_type_page]
       = ([Skipping_ingredient (JStr "Chicken");
           Logged_exception AttributeError], Ok []).
Proof. split; [by vm_compute|intros L; by vm_compute]. Qed.


(** C7, instance: a type and a unit that the enumerations do not have. *)
Lemma enum_membership_checked_meat_kilograms :
  (exists errors,
      @construct numbers_only meat_kilograms_fields
      = Raise (ValidationError errors) /\ ("type", enum) ∈ errors)
  /\ (exists errors,
        @construct numbers_only meat_kilograms_fields
        = Raise (ValidationError errors)
        /\ ("units_of_measurement", enum) ∈ errors).
Proof.
  destruct (@enum_membership_checked numbers_only meat_kilograms_fields
              "kilograms" eq_refl) as [Htype Hunits].
  split; [apply Htype; intros t; by destruct t|by apply Hunits].
Defined.

(** C7, counterexample: "GRAMS" is not a value of [UnitOfMeasurement], and
    the fields read from [capital_units_page], which have it as unit,
    construct [chicken]. *)
Lemma capital_units_construct :
  extract_fields capital_units_page = Ok (chicken_fields (JStr "GRAMS"))
  /\ ("GRAMS" ∉ map UnitOfMeasurement_value UnitOfMeasurement_members)
  /\ forall L : LaxCoercion,
       @construct L (chicken_fields (JStr "GRAMS")) = Ok chicken.
Proof.
  split; [by vm_compute|]. split; [|intros L; by vm_compute].
  by intros [[=]|[]%elem_of_nil]%elem_of_cons.
Qed.

(** C8, instance: the name of [chicken] is the text read from its page. *)
Lemma constructed_name_is_text_chicken :
  exists x,
    extract_fields chicken_page = Ok x /\ f_name x = JStr (name chicken).
Proof.
  apply (@constructed_name_is_text numbers_only chicken_page chicken).
  by vm_compute.
Defined.

(** C8, counterexample: a page whose name is the empty text constructs an
    Ingredient whose name is empty. *)
Lemma empty_name_constructs :
  (forall L : LaxCoercion,
      @parse_ingredient_page L empty_name_page = Ok (renamed "" chicken))
  /\ name (renamed "" chicken) = "".
Proof. split; [intros L; by vm_compute|done]. Qed.

(** C9, instance: the two answers of
    [test_get_ingredients_data_multiple_pages]; the two requests differ. *)
Lemma requests_follow_cursors_two_pages :
  NoDup
    (calls
       (@get_ingredients_data numbers_only _ mock_post 2
          (mkMock [Ok first_response; Ok second_response] [])).1.1).
Proof.
  apply (@requests_follow_cursors numbers_only [first_response]
           second_response [] 2%nat).
  - by repeat constructor.
  - reflexivity.
  - simpl. lia.
  - apply NoDup_cons. split; [|apply NoDup_singleton].
    by intros [=]%list_elem_of_singleton.
Defined.

(** C9, counterexample: when an answer announces more pages and gives no
    cursor, the request without a cursor is sent again; when two answers
    give the same cursor, the request with that cursor is sent again. *)
Lemma request_sent_twice :
  (forall L : LaxCoercion,
      calls
        (@get_ingredients_data L _ mock_post 2
           (mkMock [Ok cursorless_response; Ok second_response] [])).1.1
      = [mkPayload 100 None; mkPayload 100 None])
  /\ (forall L : LaxCoercion,
        calls
          (@get_ingredients_data L _ mock_post 3
             (mkMock [Ok same_cursor_response; Ok same_cursor_response;
                      Ok second_response] [])).1.1
        = [mkPayload 100 None; mkPayload 100 (Some "c");
           mkPayload 100 (Some "c")])
  /\ ~ NoDup [mkPayload 100 None; mkPayload 100 None]
  /\ ~ NoDup [mkPayload 100 None; mkPayload 100 (Some "c");
              mkPayload 100 (Some "c")].
Proof.
  split; [intros L; by vm_compute|]. split; [intros L; by vm_compute|].
  split.
  - intros [Hin _]%NoDup_cons. apply Hin. by left.
  - intros [_ [Hin _]%NoDup_cons]%NoDup_cons. apply Hin. by left.
Qed.


(** * Further properties of the code *)

#[local] Set Warnings "-clear-no-such-hyp".

(** ** schemas.py: the enumerations *)

Lemma validate_enum_inr {E} (value : E -> string) members v m :
  validate_enum value members v = inr m -> v = JStr (value m).
Proof.
  destruct v as [| | | |s| |]; try done. rewrite /validate_enum.
  destruct (enum_of_value value members s) as [m'|] eqn:Hfind; [|done].
  intros [= <-]. by apply enum_of_value_Some in Hfind as [<- _].
Qed.

(** The validator of the field [type] and [IngredientType.__str__] are
    inverse to each other: a value validates to the member [t] exactly
    when it is the text that [str(t)] gives.  So [str] loses nothing, and
    no text other than the twelve labels (no other spelling, no other
    case) is taken for a type. *)
Theorem type_validates_iff_label v t :
  validate_enum IngredientType_value IngredientType_members v = inr t
  <-> v = JStr (IngredientType__str__ t).
Proof.
  split; [apply validate_enum_inr|].
  intros ->. by rewrite /validate_enum /IngredientType__str__
    IngredientType_of_value.
Qed.

(** No two members of [IngredientType] have the same label: none is an
    alias of another, and [str] tells them apart. *)
Theorem type_labels_differ t1 t2 :
  IngredientType__str__ t1 = IngredientType__str__ t2 <-> t1 = t2.
Proof.
  split; [|by intros ->]. intros Hstr.
  pose proof (IngredientType_of_value t1) as H1.
  rewrite -/(IngredientType__str__ t1) Hstr /IngredientType__str__ in H1.
  rewrite IngredientType_of_value in H1. by injection H1.
Qed.

(** ** notion.py: reading one page *)

Lemma title_tail_Raise first e :
  (text ← py_get first "text" (JDict ∅); py_get text "content" JNull)
  = Raise e ->
  e = AttributeError.
Proof.
  destruct first as [| | | | | |d]; simpl; try by intros [= <-].
  rewrite /dict_get. destruct (d !! "text") as [[]|]; simpl; by intros [= <-].
Qed.

Lemma title_text_content_Raise properties e :
  title_text_content properties = Raise e -> navigation_error e = true.
Proof.
  rewrite /title_text_content.
  destruct (dict_get properties "Name" ∅ !! "title") as [v|] eqn:Htitle;
    rewrite {1}/dict_get Htitle /=; [|done].
  destruct v as [| | | |[|c s]|[|first l]|d]; simpl; try by intros [= <-].
  by intros ->%title_tail_Raise.
Qed.

(** What makes the navigation of a title raise, exception by exception:
    [IndexError] for an empty list (a blank title) or an empty string,
    [KeyError] for a dict, [TypeError] for [None], a boolean or a number;
    whatever it raises is one of these or [AttributeError]. *)
Theorem title_navigation_errors properties :
  (title_text_content properties = Raise IndexError
   <-> dict_get properties "Name" ∅ !! "title" = Some (JList [])
       \/ dict_get properties "Name" ∅ !! "title" = Some (JStr ""))
  /\ (title_text_content properties = Raise KeyError
      <-> exists d, dict_get properties "Name" ∅ !! "title" = Some (JDict d))
  /\ (title_text_content properties = Raise TypeError
      <-> exists v,
            dict_get properties "Name" ∅ !! "title" = Some v
            /\ match v with
               | JNull | JBool _ | JInt _ | JFloat _ => True
               | _ => False
               end)
  /\ (forall e,
        title_text_content properties = Raise e -> navigation_error e = true).
Proof.
  rewrite /title_text_content.
  destruct (dict_get properties "Name" ∅ !! "title") as [v|] eqn:Htitle;
    rewrite {1 3 5 7}/dict_get Htitle /=; [|naive_solver].
  destruct v as [| | | |[|c s]|[|first l]|d]; simpl; try naive_solver.
  pose proof (title_tail_Raise first) as Htail. naive_solver.
Qed.

Section Record_properties.
Context `{LaxCoercion}.

Lemma Ingredient_init_error kw d :
  d ∈ Ingredient_errors kw ->
  Ingredient_init kw = Raise (ValidationError (Ingredient_errors kw)).
Proof.
  intros Hd. destruct (Ingredient_init_cases kw) as [(i & _ & Hnone)|[-> _]];
    [|done].
  rewrite Hnone in Hd. by apply elem_of_nil in Hd.
Qed.

Lemma validate_float_present v f :
  validate_float v = inr f -> present v = true.
Proof. by destruct v. Qed.

Lemma validate_optional_int_None v :
  validate_optional_int v = inr None <-> v = JNull.
Proof.
  split; [|by intros ->].
  destruct v; try done; rewrite /validate_optional_int;
    by destruct (validate_int _).
Qed.

Lemma null_field_lines kw :
  (f_name kw = JNull -> ("name", string_type) ∈ Ingredient_errors kw)
  /\ (f_type kw = JNull -> ("type", enum) ∈ Ingredient_errors kw)
  /\ (f_calories_per_100g kw = JNull ->
      ("calories_per_100g", float_type) ∈ Ingredient_errors kw)
  /\ (f_protein_per_100g kw = JNull ->
      ("protein_per_100g", float_type) ∈ Ingredient_errors kw)
  /\ (f_fat_per_100g kw = JNull ->
      ("fat_per_100g", float_type) ∈ Ingredient_errors kw)
  /\ (f_carbs_per_100g kw = JNull ->
      ("carbs_per_100g", float_type) ∈ Ingredient_errors kw).
Proof.
  rewrite /Ingredient_errors.
  repeat split; intros ->; rewrite /=; set_solver.
Qed.

(** A required field that is [None] is refused by the model, whatever the
    other fields hold: when the unit is text (so that it can be lowered)
    and the name, the type or one of the four per-100g numbers is [None],
    the construction raises a ValidationError, and it has a line for every
    such field: [string_type] for the name, [enum] for the type,
    [float_type] for a number. *)
Theorem null_required_field_is_refused x lowered :
  py_lower (f_units_of_measurement x) = Ok lowered ->
  f_name x = JNull \/ f_type x = JNull
  \/ f_calories_per_100g x = JNull \/ f_protein_per_100g x = JNull
  \/ f_fat_per_100g x = JNull \/ f_carbs_per_100g x = JNull ->
  exists errors,
    construct x = Raise (ValidationError errors)
    /\ (f_name x = JNull -> ("name", string_type) ∈ errors)
    /\ (f_type x = JNull -> ("type", enum) ∈ errors)
    /\ (f_calories_per_100g x = JNull ->
        ("calories_per_100g", float_type) ∈ errors)
    /\ (f_protein_per_100g x = JNull ->
        ("protein_per_100g", float_type) ∈ errors)
    /\ (f_fat_per_100g x = JNull -> ("fat_per_100g", float_type) ∈ errors)
    /\ (f_carbs_per_100g x = JNull ->
        ("carbs_per_100g", float_type) ∈ errors).
Proof.
  intros Hlow Hnull. rewrite /construct Hlow /=.
  set (kw := mkFields _ _ _ _ _ _ _ _ _ _).
  pose proof (null_field_lines kw) as Hlines.
  exists (Ingredient_errors kw). split; [|done].
  destruct Hlines as (Hn & Ht & Hc & Hp & Hf & Hcb).
  destruct Hnull as [Hx|[Hx|[Hx|[Hx|[Hx|Hx]]]]];
    eapply Ingredient_init_error; eauto.
Qed.

(** An optional shelf-life field of a constructed Ingredient is [None]
    exactly when the record holds no number for it ([null], or no such
    property): no default is put in its place, and no number is turned
    into [None]. *)
Theorem shelf_life_none_iff_null page x ingredient :
  extract_fields page = Ok x ->
  parse_ingredient_page page = Ok ingredient ->
  (shelf_life_room ingredient = None <-> f_shelf_life_room x = JNull)
  /\ (shelf_life_fridge ingredient = None <-> f_shelf_life_fridge x = JNull)
  /\ (shelf_life_freezer ingredient = None
      <-> f_shelf_life_freezer x = JNull).
Proof.
  intros Hx. rewrite /parse_ingredient_page Hx /= /construct.
  destruct (py_lower _) as [u|]; [|done].
  intros (_ & _ & _ & _ & _ & _ & _ & Hsr & Hsf & Hsz)%Ingredient_init_Ok_inv.
  simpl in *.
  repeat split; intros Hnone;
    try (apply validate_optional_int_None; congruence);
    apply validate_optional_int_None in Hnone; congruence.
Qed.

(** Every constructed Ingredient comes from a record in which the
    required fields are there: the type of the record is the label of the
    Ingredient's type, the unit of the record is text that lowers to the
    value of the Ingredient's unit, and none of the four per-100g numbers
    is [None]. *)
Theorem constructed_from_present_fields page ingredient :
  parse_ingredient_page page = Ok ingredient ->
  exists x u,
    extract_fields page = Ok x
    /\ f_type x = JStr (IngredientType__str__ (type ingredient))
    /\ f_units_of_measurement x = JStr u
    /\ lower u = UnitOfMeasurement_value (units_of_measurement ingredient)
    /\ present (f_calories_per_100g x) = true
    /\ present (f_protein_per_100g x) = true
    /\ present (f_fat_per_100g x) = true
    /\ present (f_carbs_per_100g x) = true.
Proof.
  rewrite /parse_ingredient_page.
  destruct (extract_fields page) as [x|]; [|done].
  rewrite /= /construct.
  destruct (f_units_of_measurement x) as [| | | |u| |] eqn:Hu; try done.
  intros (_ & Ht & Hunit & Hc & Hp & Hf & Hcb & _)%Ingredient_init_Ok_inv.
  cbn [f_type f_units_of_measurement f_calories_per_100g f_protein_per_100g
       f_fat_per_100g f_carbs_per_100g] in *.
  exists x, u.
  apply validate_enum_inr in Ht, Hunit. injection Hunit as Hunit.
  repeat split; try done; by eapply validate_float_present.
Qed.

(** Whatever [parse_ingredient_page] raises is an error of the navigation
    ([AttributeError], [IndexError], [KeyError], [TypeError]) or a
    ValidationError with at least one line. *)
Theorem parse_ingredient_page_raises page e :
  parse_ingredient_page page = Raise e ->
  navigation_error e = true
  \/ exists errors, e = ValidationError errors /\ errors <> [].
Proof.
  rewrite /parse_ingredient_page /extract_fields.
  destruct (title_text_content _) as [n|e'] eqn:Hn; simpl.
  2:{ intros [= <-]. left. by eapply title_text_content_Raise. }
  destruct (select_name _ "Type") as [t|e'] eqn:Ht; simpl.
  2:{ intros [= <-]. left. by rewrite (select_name_Raise _ _ _ Ht). }
  destruct (select_name _ "Units of Measurement") as [u|e'] eqn:Hu; simpl.
  2:{ intros [= <-]. left. by rewrite (select_name_Raise _ _ _ Hu). }
  rewrite /construct /=. destruct u; simpl; try (intros [= <-]; by left).
  intros Hinit. right.
  destruct (Ingredient_init_cases
              (mkFields n t (JStr (lower s))
                 (number (properties page) "Calories per 100g")
                 (number (properties page) "Protein per 100g")
                 (number (properties page) "Fat per 100g")
                 (number (properties page) "Carbohydrate per 100g")
                 (number (properties page) "Shelf life room")
                 (number (properties page) "Shelf life fridge")
                 (number (properties page) "Shelf life freezer")))
    as [(i & Hi & _)|[Hr Hne]]; [congruence|].
  rewrite Hr in Hinit. injection Hinit as <-. by eexists.
Qed.

(** [parse_ingredient_page] reads the ten known properties and nothing
    else: two pages that agree on these ten (whatever their ids and their
    other properties) are parsed alike. *)
Theorem parse_reads_known_properties page1 page2 :
  (forall prop,
      prop ∈ known_properties ->
      properties page1 !! prop = properties page2 !! prop) ->
  parse_ingredient_page page1 = parse_ingredient_page page2.
Proof.
  intros Hsame.
  assert (forall prop,
             prop ∈ known_properties ->
             dict_get (properties page1) prop ∅
             = dict_get (properties page2) prop ∅) as Hget.
  { intros prop Hprop. by rewrite /dict_get Hsame. }
  rewrite /parse_ingredient_page /extract_fields /title_text_content
    /select_name /number.
  rewrite !Hget //; rewrite /known_properties; set_solver.
Qed.

End Record_properties.

(** ** notion.py: parsing a batch *)

Section Batch_properties.
Context `{LaxCoercion}.

(** The loop from any state of its accumulators, in terms of the loop from
    the empty state. *)
Lemma parse_ingredient_loop_acc database_data ingredients log :
  parse_ingredient_loop database_data ingredients log
  = (log ++ (parse_ingredient_loop database_data [] []).1,
     match (parse_ingredient_loop database_data [] []).2 with
     | Ok out => Ok (ingredients ++ out)
     | Raise e => Raise e
     end).
Proof.
  revert ingredients log.
  induction database_data as [|page rest IH]; intros ingredients log.
  { by rewrite /= !app_nil_r. }
  rewrite /=.
  destruct (title_text_content (properties page)) as [n|e];
    [|by rewrite /= app_nil_r].
  destruct (parse_ingredient_page page) as [i|e].
  - rewrite (IH (ingredients ++ [i]) log) (IH [i] []) /=.
    destruct (parse_ingredient_loop rest [] []).2; [|done].
    by rewrite -app_assoc.
  - destruct (caught e); [|by rewrite /= app_nil_r].
    rewrite (IH ingredients (log ++ _))
      (IH [] [Skipping_ingredient n; Logged_exception e]) /= -app_assoc.
    by destruct (parse_ingredient_loop rest [] []).2.
Qed.

Lemma parse_ingredient_loop_app l1 l2 ingredients log :
  parse_ingredient_loop (l1 ++ l2) ingredients log
  = match parse_ingredient_loop l1 ingredients log with
    | (log1, Ok out1) => parse_ingredient_loop l2 out1 log1
    | (log1, Raise e) => (log1, Raise e)
    end.
Proof.
  revert ingredients log.
  induction l1 as [|page l1 IH]; intros ingredients log; [done|].
  rewrite /=.
  destruct (title_text_content (properties page)) as [n|e]; [|done].
  destruct (parse_ingredient_page page) as [i|e]; [by rewrite IH|].
  destruct (caught e); [by rewrite IH|done].
Qed.

Lemma constructed_cons page rest :
  constructed (page :: rest)
  = match parse_ingredient_page page with
    | Ok ingredient => ingredient :: constructed rest
    | Raise _ => constructed rest
    end.
Proof. rewrite /constructed /=. by destruct (parse_ingredient_page page). Qed.

Lemma diagnostics_cons page rest :
  diagnostics (page :: rest)
  = match title_text_content (properties page),
          parse_ingredient_page page with
    | Ok page_name, Raise e =>
        [Skipping_ingredient page_name; Logged_exception e]
    | _, _ => []
    end ++ diagnostics rest.
Proof. done. Qed.

(** Two diagnostics for every record that is dropped, none for the
    others. *)
Lemma diagnostics_count database_data :
  Forall (fun page => is_Ok (title_text_content (properties page)) = true)
    database_data ->
  (length (diagnostics database_data) + 2 * length (constructed database_data)
   = 2 * length database_data)%nat.
Proof.
  induction 1 as [|page rest Hname _ IH]; [done|].
  rewrite constructed_cons diagnostics_cons.
  destruct (title_text_content (properties page)); [|done].
  destruct (parse_ingredient_page page); rewrite /=; lia.
Qed.

(** A record whose display name cannot be read stops the batch where it
    stands: if the names of the records before it can be read and the
    navigation of its title raises [e], then [parse_ingredient_data]
    raises [e], whatever the record and the records after it are worth;
    what was logged for the records before it stays logged, and the
    Ingredients constructed so far are lost. *)
Theorem unreadable_name_aborts before page after e :
  Forall (fun page => is_Ok (title_text_content (properties page)) = true)
    before ->
  title_text_content (properties page) = Raise e ->
  parse_ingredient_data (before ++ page :: after)
  = (diagnostics before, Raise e).
Proof.
  intros Hbefore Hpage.
  rewrite /parse_ingredient_data parse_ingredient_loop_app.
  by rewrite parse_ingredient_loop_complete //= Hpage.
Qed.

(** No ValidationError leaves [parse_ingredient_data]: whatever it raises
    was raised by the navigation of the title of one of its records, and
    is an [AttributeError], [IndexError], [KeyError] or [TypeError]. *)
Theorem parse_ingredient_data_raises database_data log e :
  parse_ingredient_data database_data = (log, Raise e) ->
  navigation_error e = true
  /\ exists page,
       page ∈ database_data
       /\ title_text_content (properties page) = Raise e.
Proof.
  rewrite /parse_ingredient_data. generalize (@nil Ingredient).
  generalize (@nil log_record).
  induction database_data as [|page rest IH]; intros log0 ingredients;
    [done|].
  rewrite /=.
  destruct (title_text_content (properties page)) as [n|e'] eqn:Hn.
  - assert (forall log1 ingredients1,
               parse_ingredient_loop rest ingredients1 log1 = (log, Raise e) ->
               navigation_error e = true
               /\ exists page0,
                    page0 ∈ page :: rest
                    /\ title_text_content (properties page0) = Raise e)
      as Hrest.
    { intros log1 ingredients1 (Hnav & page0 & Hin & Hraise)%IH.
      split; [done|]. exists page0. split; [by right|done]. }
    destruct (parse_ingredient_page page) as [i|e''] eqn:Hpage;
      [by apply Hrest|].
    rewrite (parse_ingredient_page_Raise _ _ _ Hn Hpage). by apply Hrest.
  - intros [= <- <-]. split.
    + by eapply title_text_content_Raise.
    + exists page. split; [by left|done].
Qed.

(** Parsing goes record by record and keeps nothing between records, so
    it does not matter where the pages of the database were cut: when a
    first list of records is parsed without an exception, parsing it
    followed by a second list logs what parsing each of them logs, and
    returns the Ingredients of the first followed by those of the second
    (or raises what the second raises). *)
Theorem parse_ingredient_data_app l1 l2 log1 out1 :
  parse_ingredient_data l1 = (log1, Ok out1) ->
  parse_ingredient_data (l1 ++ l2)
  = (log1 ++ (parse_ingredient_data l2).1,
     match (parse_ingredient_data l2).2 with
     | Ok out2 => Ok (out1 ++ out2)
     | Raise e => Raise e
     end).
Proof.
  rewrite /parse_ingredient_data parse_ingredient_loop_app => ->.
  apply parse_ingredient_loop_acc.
Qed.

(** When [parse_ingredient_data] returns, every record of its input is
    accounted for: it gave an Ingredient or it gave two log records (the
    line that names it and the exception).  So nothing is logged exactly
    when no record was dropped. *)
Theorem every_record_accounted_for database_data log out :
  parse_ingredient_data database_data = (log, Ok out) ->
  (length log + 2 * length out = 2 * length database_data)%nat
  /\ (length out <= length database_data)%nat
  /\ (log = [] <-> length out = length database_data).
Proof.
  intros Hout.
  pose proof (parse_ingredient_loop_Ok _ _ _ _ _ Hout) as Hnames.
  move: Hout. rewrite /parse_ingredient_data.
  rewrite parse_ingredient_loop_complete //=. intros [= <- <-].
  pose proof (diagnostics_count _ Hnames) as Hcount.
  split; [done|]. split; [lia|]. split.
  - intros Hnil. rewrite Hnil /= in Hcount. lia.
  - intros Hlen. apply length_zero_iff_nil. lia.
Qed.

End Batch_properties.

(** ** notion.py: the requests *)

Lemma string_app_cons c s t : String c s +:+ t = String c (s +:+ t).
Proof. reflexivity. Qed.

Lemma string_app_assoc s t u : (s +:+ t) +:+ u = s +:+ t +:+ u.
Proof.
  induction s as [|c s IH]; [reflexivity|].
  by rewrite !string_app_cons IH.
Qed.

Lemma string_app_length s t :
  String.length (s +:+ t) = (String.length s + String.length t)%nat.
Proof.
  induction s as [|c s IH]; [reflexivity|].
  by rewrite string_app_cons /= IH.
Qed.

Lemma string_app_inj_r t s1 s2 : s1 +:+ t = s2 +:+ t -> s1 = s2.
Proof.
  revert s2. induction s1 as [|c1 s1 IH]; intros [|c2 s2] Heq; [done|..].
  - apply (f_equal String.length) in Heq.
    rewrite string_app_cons /= !string_app_length /= in Heq. lia.
  - apply (f_equal String.length) in Heq.
    rewrite string_app_cons /= !string_app_length /= in Heq. lia.
  - rewrite !string_app_cons in Heq. injection Heq as -> Heq.
    f_equal. by apply IH.
Qed.

(** The URL that is queried is the base URL followed by [/query], and it
    names one database only: two databases are queried at the same URL
    exactly when they have the same id. *)
Theorem query_url_names_database id1 id2 :
  query_url (NotionDatabase__init__ id1)
  = "https://api.notion.com/v1/databases/" +:+ id1 +:+ "/query"
  /\ (query_url (NotionDatabase__init__ id1)
      = query_url (NotionDatabase__init__ id2)
      <-> id1 = id2).
Proof.
  rewrite /query_url /NotionDatabase__init__ /=.
  split; [by rewrite string_app_assoc|].
  split; [|by intros ->].
  by intros Hid%string_app_inj_r%(inj (String.app _)).
Qed.

(** The body of the request holds the page size (100 when none is given)
    and, only when there is a cursor, the cursor: a missing cursor is left
    out, never sent as [null].  Nothing else is in it, so two requests
    have the same body exactly when they ask for the same page size at
    the same cursor. *)
Theorem request_body_holds page_size1 cursor1 page_size2 cursor2 :
  request_body page_size1 cursor1 !! "page_size"
  = Some (JInt (default 100 page_size1))
  /\ request_body page_size1 cursor1 !! "start_cursor" = JStr <$> cursor1
  /\ (forall k,
        k <> "page_size" -> k <> "start_cursor" ->
        request_body page_size1 cursor1 !! k = None)
  /\ (request_body page_size1 cursor1 = request_body page_size2 cursor2
      <-> default 100 page_size1 = default 100 page_size2
          /\ cursor1 = cursor2).
Proof.
  assert (forall ps c,
             request_body ps c !! "page_size" = Some (JInt (default 100 ps))
             /\ request_body ps c !! "start_cursor" = JStr <$> c) as Hkeys.
  { intros ps [c|]; rewrite /request_body /=.
    - by rewrite lookup_insert_eq lookup_insert_ne // lookup_singleton_eq.
    - by rewrite lookup_singleton_eq lookup_singleton_ne. }
  destruct (Hkeys page_size1 cursor1) as [Hsize Hcursor].
  split; [done|]. split; [done|]. split.
  - intros k Hk1 Hk2. rewrite /request_body.
    destruct cursor1; rewrite /= ?lookup_insert_ne // lookup_singleton_ne //.
  - split; [|by rewrite /request_body; intros [-> ->]].
    intros Hbody. destruct (Hkeys page_size2 cursor2) as [Hsize2 Hcursor2].
    rewrite Hbody Hsize2 in Hsize. rewrite Hbody Hcursor2 in Hcursor.
    split; [by simplify_eq|].
    destruct cursor1, cursor2; by simplify_eq/=.
Qed.

(** ** notion.py: the pagination loop *)

Lemma fetch_loop_script_raise init e script fuel pages cursor cs :
  Forall (fun r => has_more r = true) init ->
  (length init < fuel)%nat ->
  fetch_loop mock_post fuel pages true cursor
    (mkMock (map Ok init ++ Raise e :: script) cs)
  = (mkMock script (cs ++ requests (cursor :: map next_cursor init)),
     Raised e).
Proof.
  intros Hmore. revert fuel pages cursor cs.
  induction Hmore as [|r init Hr _ IH]; intros fuel pages cursor cs Hfuel.
  - by destruct fuel as [|fuel]; [inversion Hfuel|].
  - destruct fuel as [|fuel]; [by inversion Hfuel|].
    cbn [map app]. rewrite fetch_loop_step Hr IH; [simpl in Hfuel; lia|].
    by rewrite /= -!app_assoc.
Qed.

(** What the loop adds to the record of calls, whatever the script. *)
Lemma fetch_loop_calls fuel pages more cursor script cs :
  exists new,
    calls (fetch_loop mock_post fuel pages more cursor (mkMock script cs)).1
    = cs ++ new
    /\ Forall (fun p => page_size p = 100) new
    /\ (length new <= fuel)%nat
    /\ (length new <= S (length script))%nat
    /\ (more = true -> (0 < fuel)%nat ->
        head new = Some (mkPayload 100 cursor)).
Proof.
  revert pages more cursor script cs.
  induction fuel as [|fuel IH]; intros pages more cursor script cs.
  { exists []. destruct more; rewrite /= app_nil_r.
    all: repeat split; try done; try lia. }
  destruct more.
  2:{ exists []. rewrite /= app_nil_r. repeat split; try done; lia. }
  destruct script as [|[r|e] script].
  - exists [mkPayload 100 cursor]. rewrite /=.
    repeat split; try done; try lia. by repeat constructor.
  - rewrite fetch_loop_step.
    destruct (IH (pages ++ results r) (has_more r) (next_cursor r) script
                (cs ++ [mkPayload 100 cursor]))
      as (new & -> & Hsize & Hfuel & Hscript & _).
    exists (mkPayload 100 cursor :: new). rewrite -app_assoc /=.
    repeat split; try done; try lia. by constructor.
  - exists [mkPayload 100 cursor]. rewrite /=.
    repeat split; try done; try lia. by repeat constructor.
Qed.

Section Pagination_properties.
Context `{LaxCoercion}.

(** The world that [get_ingredients_data] leaves is the one that the loop
    leaves. *)
Lemma get_ingredients_data_world {World} (post : Payload -> World -> _) fuel w :
  (get_ingredients_data post fuel w).1.1
  = (fetch_loop post fuel [] true None w).1.
Proof.
  rewrite /get_ingredients_data.
  destruct (fetch_loop post fuel [] true None w) as [w' [pages|e|]]; [|done..].
  by destruct (parse_ingredient_data pages).
Qed.

(** A failure of the remote end ends the run with that failure: after
    any number of pages that say [has_more], an answer that raises [e]
    makes [get_ingredients_data] raise [e].  The pages fetched so far are
    given up: nothing is parsed and nothing is logged, and no further
    request is sent. *)
Theorem transport_failure_propagates init e script fuel :
  Forall (fun r => has_more r = true) init ->
  (length init < fuel)%nat ->
  get_ingredients_data mock_post fuel
    (mkMock (map Ok init ++ Raise e :: script) [])
  = (mkMock script (requests (None :: map next_cursor init)), [], Raised e).
Proof.
  intros Hmore Hfuel.
  by rewrite /get_ingredients_data fetch_loop_script_raise.
Qed.

(** Whatever the remote end answers, every request asks for 100 records,
    there are at most as many requests as rounds and at most one more
    than there are answers, and the first request carries no cursor. *)
Theorem requests_ask_for_100 script fuel :
  Forall (fun p => page_size p = 100)
    (calls (get_ingredients_data mock_post fuel (mkMock script [])).1.1)
  /\ (length (calls (get_ingredients_data mock_post fuel
                       (mkMock script [])).1.1) <= fuel)%nat
  /\ (length (calls (get_ingredients_data mock_post fuel
                       (mkMock script [])).1.1) <= S (length script))%nat
  /\ ((0 < fuel)%nat ->
      head (calls (get_ingredients_data mock_post fuel
                     (mkMock script [])).1.1)
      = Some (mkPayload 100 None)).
Proof.
  rewrite get_ingredients_data_world.
  destruct (fetch_loop_calls fuel [] true None script [])
    as (new & -> & Hsize & Hfuel & Hscript & Hhead).
  repeat split; try done. by apply Hhead.
Qed.

(** The loop has no way out but an answer with [has_more = False] or an
    exception: against a remote end that always answers, and always with
    [has_more = True], it is still running after any number of rounds. *)
Theorem endless_pages_never_return {World}
    (post : Payload -> World -> World * result NotionAPIDatabaseResponse) :
  (forall payload w,
      exists w' r, post payload w = (w', Ok r) /\ has_more r = true) ->
  forall fuel w, (get_ingredients_data post fuel w).2 = Out_of_fuel.
Proof.
  intros Hpost fuel w.
  assert (forall pages cursor w0,
             (fetch_loop post fuel pages true cursor w0).2 = Out_of_fuel)
    as Hloop.
  { induction fuel as [|fuel IH]; intros pages cursor w0; [done|].
    rewrite /= /_get_database_page /=.
    destruct (Hpost (mkPayload 100 cursor) w0) as (w' & [rs nc more] & -> & Hm).
    simpl in Hm. rewrite Hm. apply IH. }
  rewrite /get_ingredients_data.
  pose proof (Hloop [] None w) as Hout.
  destruct (fetch_loop post fuel [] true None w) as [w' o].
  simpl in Hout. by rewrite Hout.
Qed.

End Pagination_properties.

(** ** The further properties on the records of the test fixture *)

(** The page of [test_parse_ingredient_data_with_invalid_page]: no number
    of calories. *)
Lemma null_required_field_is_refused_no_calories :
  extract_fields no_calories_page = Ok no_calories_fields
  /\ exists errors,
       @construct numbers_only no_calories_fields
       = Raise (ValidationError errors)
       /\ ("calories_per_100g", float_type) ∈ errors.
Proof.
  split; [by vm_compute|].
  destruct (@null_required_field_is_refused numbers_only no_calories_fields
              "grams" eq_refl)
    as (errors & Hraise & _ & _ & Hcalories & _).
  { right; right; by left. }
  exists errors. split; [done|by apply Hcalories].
Defined.

(** [rice] keeps a year at room temperature, and no time is known for the
    fridge and the freezer. *)
Lemma shelf_life_none_iff_null_rice :
  (shelf_life_room rice = None <-> f_shelf_life_room rice_fields = JNull)
  /\ (shelf_life_fridge rice = None
      <-> f_shelf_life_fridge rice_fields = JNull)
  /\ (shelf_life_freezer rice = None
      <-> f_shelf_life_freezer rice_fields = JNull).
Proof.
  apply (@shelf_life_none_iff_null numbers_only rice_page rice_fields rice);
    by vm_compute.
Defined.

Lemma constructed_from_present_fields_chicken :
  exists x u,
    extract_fields chicken_page = Ok x
    /\ f_type x = JStr (IngredientType__str__ (type chicken))
    /\ f_units_of_measurement x = JStr u
    /\ lower u = UnitOfMeasurement_value (units_of_measurement chicken)
    /\ present (f_calories_per_100g x) = true
    /\ present (f_protein_per_100g x) = true
    /\ present (f_fat_per_100g x) = true
    /\ present (f_carbs_per_100g x) = true.
Proof.
  apply (@constructed_from_present_fields numbers_only chicken_page chicken).
  by vm_compute.
Defined.

Lemma parse_ingredient_page_raises_blank_title :
  navigation_error IndexError = true
  \/ exists errors, IndexError = ValidationError errors /\ errors <> [].
Proof.
  apply (@parse_ingredient_page_raises numbers_only blank_title_page).
  by vm_compute.
Defined.

(** The first page of the fixture parses alike with and without its
    substitutions. *)
Lemma parse_reads_known_properties_substitutions :
  @parse_ingredient_page numbers_only chicken_page
  = @parse_ingredient_page numbers_only
      (without_property "Substitutions" chicken_page).
Proof.
  apply (@parse_reads_known_properties numbers_only).
  intros prop Hprop. rewrite /without_property /= lookup_delete_ne //.
  intros <-. rewrite /known_properties in Hprop.
  repeat (apply elem_of_cons in Hprop as [[=]|Hprop]).
  by apply elem_of_nil in Hprop.
Defined.

Lemma unreadable_name_aborts_blank_title :
  @parse_ingredient_data numbers_only
    ([chicken_page; no_units_page] ++ blank_title_page :: [rice_page])
  = ([Skipping_ingredient (JStr "Chicken"); Logged_exception AttributeError],
     Raise IndexError).
Proof.
  apply (@unreadable_name_aborts numbers_only [chicken_page; no_units_page]
           blank_title_page [rice_page] IndexError).
  - by repeat constructor.
  - by vm_compute.
Defined.

Lemma parse_ingredient_data_raises_blank_title :
  navigation_error IndexError = true
  /\ exists page,
       page ∈ [chicken_page; blank_title_page]
       /\ title_text_content (properties page) = Raise IndexError.
Proof.
  apply (@parse_ingredient_data_raises numbers_only
           [chicken_page; blank_title_page] []).
  by vm_compute.
Defined.

Lemma parse_ingredient_data_app_fixture :
  @parse_ingredient_data numbers_only
    ([chicken_page] ++ [no_units_page; rice_page])
  = ([Skipping_ingredient (JStr "Chicken"); Logged_exception AttributeError],
     Ok [chicken; rice]).
Proof.
  apply (@parse_ingredient_data_app numbers_only [chicken_page]
           [no_units_page; rice_page] [] [chicken]).
  by vm_compute.
Defined.

Lemma every_record_accounted_for_mixed_batch :
  (2 + 2 * 3 = 2 * length mixed_batch)%nat
  /\ (3 <= length mixed_batch)%nat
  /\ ([Skipping_ingredient (JStr "Chicken"); Logged_exception AttributeError]
      = [] <-> 3%nat = length mixed_batch).
Proof.
  apply (@every_record_accounted_for numbers_only mixed_batch
           [Skipping_ingredient (JStr "Chicken");
            Logged_exception AttributeError]
           [chicken; rice; chicken]).
  by vm_compute.
Defined.

(** The second request times out. *)
Lemma transport_failure_propagates_timeout :
  @get_ingredients_data numbers_only _ mock_post 2
    (mkMock [Ok first_response; Raise (RequestException "timeout");
             Ok second_response] [])
  = (mkMock [Ok second_response]
       [mkPayload 100 None; mkPayload 100 (Some "next_page_cursor")],
     [], Raised (RequestException "timeout")).
Proof.
  apply (@transport_failure_propagates numbers_only [first_response]
           (RequestException "timeout") [Ok second_response] 2%nat).
  - by repeat constructor.
  - simpl. lia.
Defined.

Lemma endless_pages_never_return_endless_post :
  (@get_ingredients_data numbers_only _ endless_post 25 []).2 = Out_of_fuel.
Proof.
  apply (@endless_pages_never_return numbers_only _ endless_post).
  intros payload seen. by eexists _, _.
Defined.
